(** * PhyloRank: the command layer of [phylorank/main.py]

    A shallow embedding of [OptionsParser] (the command handlers and their
    dispatcher) together with the properties the specification states about
    them.  Python values are modelled as follows.

    - [str] is [string]; a label that may be [None] is [option string].
    - a [dict] with string keys is a [gmap string _]; a [defaultdict] is a
      [gmap] read through a default.
    - a dendropy tree is a rose tree of nodes carrying a taxon, a label, an
      edge length and the ordered list of children; a tree file holds the
      names, lengths and nesting of its Newick text.
    - logging, [sys.exit], uncaught exceptions and the files a command
      writes are threaded through a small state-and-exit monad [proc]. *)

From Stdlib Require Import ZArith QArith Lqa String Ascii List DecimalString.
From stdpp Require Import gmap strings list.

Open Scope string_scope.

(** ** Python string primitives used by [main.py] *)

Module Py.

(** [sep.join(xs)] *)
Definition join (sep : string) (xs : list string) : string :=
  String.concat sep xs.

(** [s.split(c)] for a one-character separator: never empty. *)
Fixpoint split (sep : ascii) (s : string) : list string :=
  match s with
  | EmptyString => [EmptyString]
  | String c r =>
      if Ascii.eqb c sep then EmptyString :: split sep r
      else match split sep r with
           | h :: t => String c h :: t
           | [] => [String c EmptyString]
           end
  end.

(** The characters [str.strip()] removes: space, \t, \n, \v, \f, \r. *)
Definition is_space (c : ascii) : bool :=
  let n := nat_of_ascii c in
  Nat.eqb n 32 || (Nat.leb 9 n && Nat.leb n 13).

Fixpoint lstrip (s : string) : string :=
  match s with
  | EmptyString => EmptyString
  | String c r => if is_space c then lstrip r else s
  end.

Fixpoint rstrip (s : string) : string :=
  match s with
  | EmptyString => EmptyString
  | String c r =>
      match rstrip r with
      | EmptyString => if is_space c then EmptyString else String c EmptyString
      | r' => String c r'
      end
  end.

(** [s.strip()] *)
Definition strip (s : string) : string := rstrip (lstrip s).

(** [s[0:n]] *)
Definition slice_to (n : nat) (s : string) : string := String.substring 0 n s.

(** [xs[-1]] on a list known to be non-empty ([split] results). *)
Definition last_item (xs : list string) : string := List.last xs EmptyString.

(** [sub in s] *)
Fixpoint contains (sub s : string) : bool :=
  String.prefix sub s
  || match s with
     | EmptyString => false
     | String _ r => contains sub r
     end.

(** Truth value of a string that may be [None]. *)
Definition truthy (s : option string) : bool :=
  match s with
  | Some (String _ _) => true
  | _ => false
  end.

(** ['%s' % x] for a string that may be [None]. *)
Definition str (s : option string) : string :=
  match s with
  | Some x => x
  | None => "None"
  end.

(** ['%d' % n] *)
Definition fmt_d (n : Z) : string := NilEmpty.string_of_int (Z.to_int n).

(** The status the operating system sees for [sys.exit(arg)]. *)
Definition exit_status (arg : option Z) : Z :=
  match arg with
  | None => 0
  | Some n => Z.land n 255
  end.

End Py.

(** ** Trees *)

(** A dendropy node: [taxon] (the label of its taxon, when it has one),
    [label], [edge_length] and [child_nodes()]. *)
#[warnings="-register-all"]
Inductive node : Type :=
| Node (taxon : option string) (label : option string)
       (edge_length : option Q) (child_nodes : list node).

Definition taxon (n : node) : option string :=
  match n with Node tx _ _ _ => tx end.

Definition label (n : node) : option string :=
  match n with Node _ l _ _ => l end.

Definition edge_length (n : node) : option Q :=
  match n with Node _ _ e _ => e end.

Definition child_nodes (n : node) : list node :=
  match n with Node _ _ _ cs => cs end.

Definition is_leaf (n : node) : bool :=
  match child_nodes n with
  | [] => true
  | _ :: _ => false
  end.

(** [tree.preorder_node_iter()] *)
Fixpoint preorder_node_iter (n : node) : list node :=
  n :: flat_map preorder_node_iter (child_nodes n).

(** [tree.leaf_node_iter()] *)
Definition leaf_node_iter (n : node) : list node :=
  filter (fun m => is_leaf m = true) (preorder_node_iter n).

(** Structural induction through the child lists. *)
Section node_induction.
Variable P : node -> Prop.
Hypothesis step : forall tx l e cs, Forall P cs -> P (Node tx l e cs).

Fixpoint node_ind' (n : node) : P n :=
  match n with
  | Node tx l e cs =>
      step tx l e cs
        ((fix go (cs : list node) : Forall P cs :=
            match cs return Forall P cs with
            | [] => @List.Forall_nil _ P
            | c :: r => @List.Forall_cons _ P c r (node_ind' c) (go r)
            end) cs)
  end.
End node_induction.

(** A tree as it stands in a Newick file: at each node an optional name, an
    optional length and the subtrees. *)
#[warnings="-register-all"]
Inductive newick : Type :=
| Newick (name : option string) (length : option Q) (subtrees : list newick).

Section newick_induction.
Variable P : newick -> Prop.
Hypothesis step : forall name len subs, Forall P subs -> P (Newick name len subs).

Fixpoint newick_ind' (t : newick) : P t :=
  match t with
  | Newick name len subs =>
      step name len subs
        ((fix go (subs : list newick) : Forall P subs :=
            match subs return Forall P subs with
            | [] => @List.Forall_nil _ P
            | c :: r => @List.Forall_cons _ P c r (newick_ind' c) (go r)
            end) subs)
  end.
End newick_induction.

(** The tree dendropy builds from a Newick file when called as [main.py]
    calls it ([schema='newick', rooting='force-rooted',
    preserve_underscores=True], every other option at its default): the name
    of a leaf becomes its taxon and its [label] stays [None]; the name of an
    internal node becomes its [label] and it has no taxon. *)
Fixpoint read_newick (t : newick) : node :=
  match t with
  | Newick name len [] => Node name None len []
  | Newick name len subs => Node None name len (map read_newick subs)
  end.

(** The name dendropy writes for a node when called as [main.py] calls it
    ([suppress_rooting=True, unquoted_underscores=True], every other option
    at its default): the taxon label, then for an internal node its [label],
    joined by a space; the [label] of a leaf is not written. *)
Definition node_tag (n : node) : option string :=
  let parts :=
    (match taxon n with Some tx => [tx] | None => [] end
     ++ if is_leaf n then []
        else match label n with
             | Some (String a l) => [String a l]
             | _ => []
             end)%list in
  match parts with
  | [] => None
  | _ => Some (Py.join " " parts)
  end.

(** The Newick tree dendropy writes for an in-memory tree. *)
Fixpoint write_newick (n : node) : newick :=
  match n with
  | Node _ _ e cs => Newick (node_tag n) e (map write_newick cs)
  end.

(** ** Processes: logging, exit, exceptions, files *)

Inductive level : Type := INFO | ERROR.

Inductive exception : Type :=
| ZeroDivisionError
| IndexError
| TypeError
| IOError
| ParseError.

(** How a call ends: it returns, [sys.exit(arg)] unwinds, or an exception
    escapes. *)
Inductive outcome (A : Type) : Type :=
| Returned (a : A)
| SysExit (arg : option Z)
| Raised (e : exception).

Arguments Returned {A} a.
Arguments SysExit {A} arg.
Arguments Raised {A} e.

(** What a file holds: a Newick tree, or a taxonomy as biolib's
    [Taxonomy().read] returns it. *)
Inductive file : Type :=
| TreeFile (tree : newick)
| TaxonomyFile (taxonomy : gmap string (list string)).

(** What a run can observe and change: the records handed to the logger
    (oldest first) and the files, by path. *)
Record world : Type := World {
  log : list (level * string);
  files : gmap string file
}.

Definition proc (A : Type) : Type := world -> outcome A * world.

#[global] Instance proc_ret : MRet proc := fun A a w => (Returned a, w).

#[global] Instance proc_bind : MBind proc := fun A B f m w =>
  match m w with
  | (Returned a, w') => f a w'
  | (SysExit arg, w') => (SysExit arg, w')
  | (Raised e, w') => (Raised e, w')
  end.

Definition logger (lvl : level) (msg : string) : proc unit := fun w =>
  (Returned tt, {| log := log w ++ [(lvl, msg)]; files := files w |}).

Definition logger_info : string -> proc unit := logger INFO.
Definition logger_error : string -> proc unit := logger ERROR.

Definition sys_exit {A : Type} (arg : option Z) : proc A := fun w =>
  (SysExit arg, w).

Definition raise {A : Type} (e : exception) : proc A := fun w =>
  (Raised e, w).

Definition nl : string := String (ascii_of_nat 10) EmptyString.
Definition tab : string := String (ascii_of_nat 9) EmptyString.

(** biolib's [check_file_exists(path)]: a missing file is logged as an error
    and ends the run through [sys.exit()]. *)
Definition check_file_exists (path : string) : proc unit := fun w =>
  match files w !! path with
  | Some _ => (Returned tt, w)
  | None =>
      (logger_error ("Input file does not exists: " ++ path ++ nl);;
       sys_exit None) w
  end.

(** [Taxonomy().read(path)]: opening a missing file raises; a file that is
    not a taxonomy cannot be read and the library's exception escapes. *)
Definition taxonomy_read (path : string) : proc (gmap string (list string)) :=
  fun w =>
    match files w !! path with
    | Some (TaxonomyFile t) => (Returned t, w)
    | Some (TreeFile _) => (Raised ParseError, w)
    | None => (Raised IOError, w)
    end.

(** [dendropy.Tree.get_from_path(path, schema='newick',
    rooting='force-rooted', preserve_underscores=True)]: opening a missing
    file raises; a file that is not a tree cannot be read and the library's
    exception escapes. *)
Definition get_from_path (path : string) : proc node := fun w =>
  match files w !! path with
  | Some (TreeFile t) => (Returned (read_newick t), w)
  | Some (TaxonomyFile _) => (Raised ParseError, w)
  | None => (Raised IOError, w)
  end.

(** [tree.write_to_path(path, schema='newick', suppress_rooting=True,
    unquoted_underscores=True)] *)
Definition write_to_path (tree : node) (path : string) : proc unit := fun w =>
  (Returned tt,
   {| log := log w;
      files := <[path := TreeFile (write_newick tree)]> (files w) |}).

(** Run [f] on the items of a list from left to right, stopping at the
    first exit or exception. *)
Definition for_each {A B : Type} (f : A -> proc B) : list A -> proc (list B) :=
  fix go (xs : list A) : proc (list B) :=
    match xs with
    | [] => mret []
    | x :: r => y ← f x; ys ← go r; mret (y :: ys)
    end.

(** ** The rank schema (class attributes of biolib's [Taxonomy]) *)

Module Taxonomy.

Definition rank_prefixes : list string :=
  ["d__"; "p__"; "c__"; "o__"; "f__"; "g__"; "s__"].

Definition rank_labels : list string :=
  ["domain"; "phylum"; "class"; "order"; "family"; "genus"; "species"].

End Taxonomy.

(** ** Command options (the fields the modelled handlers read) *)

Record options : Type := Options {
  subparser_name : string;
  input_tree : string;
  taxonomy_file : string;
  output_tree : string;
  output_table : string;
  rank : string;
  no_prefix : bool;
  no_all_ranks : bool;
  no_hierarhcy : bool;
  no_species : bool
}.

(** The four collections [Taxonomy.validate] returns, in its order. *)
Record validation_errors : Type := ValidationErrors {
  invalid_ranks : list string;
  invalid_prefixes : list string;
  invalid_species_name : list string;
  invalid_hierarchies : list string
}.

Definition errors_tuple (e : validation_errors) : list (list string) :=
  [invalid_ranks e; invalid_prefixes e; invalid_species_name e;
   invalid_hierarchies e].

(** Python's [sum] over a list of integers. *)
Definition py_sum (xs : list Z) : Z := fold_left Z.add xs 0%Z.

(** Python's [len]. *)
Definition len {A : Type} (xs : list A) : Z := Z.of_nat (length xs).

(** ** The command handlers of [OptionsParser]

    The handlers read their inputs through biolib and dendropy.  The parts of
    the repository and of its libraries that are called but not defined in
    [main.py] are the variables of this section. *)

Section commands.

(** biolib's [Taxonomy.validate(t, check_prefixes, check_ranks,
    check_hierarchy, check_species, report_errors)]. *)
Variable taxonomy_validate :
  gmap string (list string) -> bool -> bool -> bool -> bool -> bool ->
  validation_errors.

(** [BranchLengthDistribution().optimal(input_tree, rank, output_table)]:
    the optimal branch length and the correct and incorrect counts. *)
Variable optimal : string -> string -> string -> proc (Q * Z * Z).

(** ['%f' % x] and ['%.2f' % x]. *)
Variables fmt_f fmt_2f : Q -> string.

(** The handlers that only forward to other modules, by command name. *)
Variable external : string -> options -> proc unit.

(** The text biolib's [TimeKeeper.print_time_stamp] reports. *)
Variable time_stamp : string.

(** *** validate *)

Definition validate (options : options) : proc unit :=
  check_file_exists (taxonomy_file options);;
  t ← taxonomy_read (taxonomy_file options);
  let errors :=
    taxonomy_validate t
      (negb (no_prefix options))
      (negb (no_all_ranks options))
      (negb (no_hierarhcy options))
      (negb (no_species options))
      true in
  if (py_sum (map len (errors_tuple errors)) =? 0)%Z then
    logger_info "No errors identified in taxonomy file."
  else
    logger_info ("Identified " ++ Py.fmt_d (len (invalid_ranks errors))
                 ++ " incomplete taxonomy strings.");;
    logger_info ("Identified " ++ Py.fmt_d (len (invalid_prefixes errors))
                 ++ " rank prefix errors.");;
    logger_info ("Identified " ++ Py.fmt_d (len (invalid_species_name errors))
                 ++ " invalid species names.");;
    logger_info ("Identified " ++ Py.fmt_d (len (invalid_hierarchies errors))
                 ++ " taxa with multiple parents.").

(** *** append *)

(** [taxonomy.get(key, None)] for a key that may itself be [None]. *)
Definition dict_get (taxonomy : gmap string (list string))
    (key : option string) : option (list string) :=
  match key with
  | Some k => taxonomy !! k
  | None => None
  end.

(** The body of [for n in tree.leaf_node_iter()] on one leaf. *)
Definition append_leaf (taxonomy : gmap string (list string))
    (tx l : option string) (e : option Q) : proc node :=
  let taxa_str := dict_get taxonomy l in
  match taxa_str with
  | None =>
      logger_error ("Taxonomy file does not contain an entry for "
                    ++ Py.str l ++ ".");;
      sys_exit (Some (-1)%Z)
  | Some taxa =>
      match l with
      | Some s => mret (Node tx (Some (s ++ "|" ++ Py.join ";" taxa)) e [])
      | None => raise TypeError
      end
  end.

(** The whole loop: leaves are visited left to right and relabelled in
    place; internal nodes are left alone. *)
Fixpoint append_labels (taxonomy : gmap string (list string)) (n : node)
    : proc node :=
  match n with
  | Node tx l e [] => append_leaf taxonomy tx l e
  | Node tx l e cs =>
      cs' ← for_each (append_labels taxonomy) cs;
      mret (Node tx l e cs')
  end.

Definition stars : string :=
  "*******************************************************************************".

Definition append (options : options) : proc unit :=
  logger_info "";;
  logger_info stars;;
  logger_info " [PhyloRank - append] Appending taxonomy to extant tree labels.";;
  logger_info stars;;
  check_file_exists (input_tree options);;
  check_file_exists (taxonomy_file options);;
  taxonomy ← taxonomy_read (taxonomy_file options);
  tree ← get_from_path (input_tree options);
  tree' ← append_labels taxonomy tree;
  write_to_path tree' (output_tree options);;
  logger_info "";;
  logger_info ("  Decorated tree written to: " ++ output_tree options);;
  logger_info time_stamp.

(** *** bl_optimal *)

(** [float(x) / d] on integers: Python raises when [d] is zero. *)
Definition float_div (x d : Z) : proc Q :=
  if (d =? 0)%Z then raise ZeroDivisionError
  else mret (inject_Z x / inject_Z d)%Q.

Definition bl_optimal (options : options) : proc unit :=
  '(optimal_bl, correct_taxa, incorrect_taxa) ←
    optimal (input_tree options) (rank options) (output_table options);
  prec ← float_div correct_taxa (correct_taxa + incorrect_taxa)%Z;
  logger_info ("Optimal branch length is " ++ fmt_f optimal_bl ++ ".");;
  logger_info ("This results in " ++ Py.fmt_d correct_taxa
               ++ " correct and " ++ Py.fmt_d incorrect_taxa
               ++ " incorrect taxa (precision = " ++ fmt_2f prec ++ ").").

(** *** parse_options *)

(** The methods [parse_options] reaches through [self]. *)
Record self_t : Type := Self {
  self_outliers : options -> proc unit;
  self_decorate : options -> proc unit;
  self_scale : options -> proc unit;
  self_tree_diff : options -> proc unit;
  self_pull : options -> proc unit;
  self_validate : options -> proc unit;
  self_append : options -> proc unit;
  self_taxon_stats : options -> proc unit;
  self_robustness_plot : options -> proc unit;
  self_dist_plot : options -> proc unit;
  self_rd_ranks : options -> proc unit;
  self_bl_dist : options -> proc unit;
  self_bl_optimal : options -> proc unit;
  self_bl_decorate : options -> proc unit;
  self_bl_table : options -> proc unit;
  self_rank_res : options -> proc unit
}.

Definition parse_options (self : self_t) (options : options) : proc Z :=
  (if subparser_name options =? "outliers" then self_outliers self options
   else if subparser_name options =? "decorate" then self_decorate self options
   else if subparser_name options =? "scale" then self_scale self options
   else if subparser_name options =? "tree_diff" then self_tree_diff self options
   else if subparser_name options =? "pull" then self_pull self options
   else if subparser_name options =? "validate" then self_validate self options
   else if subparser_name options =? "append" then self_append self options
   else if subparser_name options =? "taxon_stats" then self_taxon_stats self options
   else if subparser_name options =? "robustness_plot" then self_robustness_plot self options
   else if subparser_name options =? "dist_plot" then self_dist_plot self options
   else if subparser_name options =? "rd_ranks" then self_rd_ranks self options
   else if subparser_name options =? "bl_dist" then self_bl_dist self options
   else if subparser_name options =? "bl_optimal" then self_bl_optimal self options
   else if subparser_name options =? "bl_decorate" then self_bl_decorate self options
   else if subparser_name options =? "bl_table" then self_bl_table self options
   else if subparser_name options =? "rank_res" then self_rank_res self options
   else
     logger_error ("  [Error] Unknown PhyloRank command: "
                   ++ subparser_name options ++ nl);;
     sys_exit None);;
  mret 0%Z.

(** The parser object itself: the handlers modelled above, and the
    forwarding ones. *)
Definition OptionsParser : self_t := {|
  self_outliers := external "outliers";
  self_decorate := external "decorate";
  self_scale := external "scale";
  self_tree_diff := external "tree_diff";
  self_pull := external "pull";
  self_validate := validate;
  self_append := append;
  self_taxon_stats := external "taxon_stats";
  self_robustness_plot := external "robustness_plot";
  self_dist_plot := external "dist_plot";
  self_rd_ranks := external "rd_ranks";
  self_bl_dist := external "bl_dist";
  self_bl_optimal := bl_optimal;
  self_bl_decorate := external "bl_decorate";
  self_bl_table := external "bl_table";
  self_rank_res := external "rank_res"
|}.

(** The command table the [if]/[elif] chain spells out, in its order. *)
Definition commands (self : self_t) : list (string * (options -> proc unit)) :=
  [("outliers", self_outliers self); ("decorate", self_decorate self);
   ("scale", self_scale self); ("tree_diff", self_tree_diff self);
   ("pull", self_pull self); ("validate", self_validate self);
   ("append", self_append self); ("taxon_stats", self_taxon_stats self);
   ("robustness_plot", self_robustness_plot self);
   ("dist_plot", self_dist_plot self); ("rd_ranks", self_rd_ranks self);
   ("bl_dist", self_bl_dist self); ("bl_optimal", self_bl_optimal self);
   ("bl_decorate", self_bl_decorate self); ("bl_table", self_bl_table self);
   ("rank_res", self_rank_res self)].

(** First handler registered under [name], if any. *)
Fixpoint handler_of (name : string)
    (table : list (string * (options -> proc unit)))
    : option (options -> proc unit) :=
  match table with
  | [] => None
  | (k, h) :: rest => if name =? k then Some h else handler_of name rest
  end.

End commands.

(** ** rank_res: the two counting loops *)

Section rank_res.

(** [phylorank.newick.parse_label]: support value, taxon name and
    auxiliary information of a node label, each possibly [None]. *)
Variable parse_label : string -> option Q * option string * option string.

(** [options.taxa_file] is set. *)
Variable taxa_file : bool.

(** [rank_res[r][lowest]] read without creating the entry. *)
Definition get_count (rank_res : gmap string (gmap string Z))
    (r lowest : string) : Z :=
  match rank_res !! r with
  | Some row => default 0%Z (row !! lowest)
  | None => 0%Z
  end.

(** [rank_res[r][lowest] += 1] on a [defaultdict] of [defaultdict(int)]. *)
Definition incr (rank_res : gmap string (gmap string Z))
    (r lowest : string) : gmap string (gmap string Z) :=
  <[r := <[lowest := (get_count rank_res r lowest + 1)%Z]>
           (default ∅ (rank_res !! r))]> rank_res.

(** The counters and the lines written to [taxa_out]. *)
Record tally : Type := Tally {
  rank_res : gmap string (gmap string Z);
  taxa_out : list string
}.

Definition taxa_line (a b c : string) : string :=
  a ++ tab ++ b ++ tab ++ c ++ nl.

Definition count_one (st : tally) (r lowest shown : string) : tally :=
  {| rank_res := incr (rank_res st) r lowest;
     taxa_out := if taxa_file
                 then taxa_out st ++ [taxa_line r lowest shown]
                 else taxa_out st |}.

(** [[x.strip() for x in taxon_name.split(';')][-1][0:3]] *)
Definition lowest_rank (taxon_name : string) : string :=
  Py.slice_to 3
    (Py.last_item (map Py.strip (Py.split ";"%char taxon_name))).

(** The inner [for rank_prefix in Taxonomy.rank_prefixes]. *)
Definition count_prefixes (taxon_name : string) (st : tally) : tally :=
  fold_left
    (fun st rank_prefix =>
       if Py.contains rank_prefix taxon_name
       then count_one st rank_prefix (lowest_rank taxon_name) taxon_name
       else st)
    Taxonomy.rank_prefixes st.

(** One iteration of the loop over the non-root nodes. *)
Definition rank_res_node (st : tally) (node : node) : tally :=
  if negb (Py.truthy (label node)) || is_leaf node then st
  else
    match label node with
    | None => st
    | Some lbl =>
        let '(_support, taxon_name, _auxiliary_info) := parse_label lbl in
        match taxon_name with
        | Some name =>
            if Py.truthy taxon_name then count_prefixes name st else st
        | None => st
        end
    end.

(** [for node in tree.preorder_node_iter(lambda n: n != tree.seed_node)]:
    the seed node comes first in preorder and is the one left out. *)
Definition rank_res_tree (tree : node) (st : tally) : tally :=
  fold_left rank_res_node (tail (preorder_node_iter tree)) st.

(** [for i, rank_prefix in enumerate(Taxonomy.rank_prefixes)] on one
    row; [taxonomy[i]] raises when the row is too short. *)
Fixpoint count_singletons (taxonomy : list string) (i : nat)
    (prefixes : list string) (st : tally) : exception + tally :=
  match prefixes with
  | [] => inr st
  | rank_prefix :: rest =>
      match taxonomy !! i with
      | None => inl IndexError
      | Some x =>
          count_singletons taxonomy (S i) rest
            (if x =? rank_prefix
             then count_one st rank_prefix "s__" x
             else st)
      end
  end.

(** One line of [for line in open(options.taxonomy_file)].  A line is what
    Python's file iteration yields: the text up to and including its
    newline. *)
Definition rank_res_line (st : tally) (line : string) : exception + tally :=
  let line_split := Py.split (ascii_of_nat 9) line in
  match line_split !! 1%nat with
  | None => inl IndexError
  | Some field =>
      let taxonomy := Py.split ";"%char field in
      count_singletons taxonomy 0 Taxonomy.rank_prefixes st
  end.

Fixpoint rank_res_lines (lines : list string) (st : tally)
    : exception + tally :=
  match lines with
  | [] => inr st
  | line :: rest =>
      match rank_res_line st line with
      | inl e => inl e
      | inr st' => rank_res_lines rest st'
      end
  end.

(** Both loops, from empty counters. *)
Definition rank_res_counts (tree : node) (lines : list string)
    : exception + tally :=
  rank_res_lines lines
    (rank_res_tree tree {| rank_res := ∅; taxa_out := [] |}).

End rank_res.

(** Python's [open(path)] iteration: the text cut after every newline. *)
Fixpoint file_lines (text : string) : list string :=
  match text with
  | EmptyString => []
  | String c r =>
      if Ascii.eqb c (ascii_of_nat 10) then String c EmptyString :: file_lines r
      else match file_lines r with
           | [] => [String c EmptyString]
           | h :: t => String c h :: t
           end
  end.

(** ** The RED engine *)

Module RED.







(** A tree annotated by the engine: each node with its RED value and its
    branch length. *)
#[warnings="-register-all"]
Inductive red_node : Type :=
| RedNode (red : Q) (length : Q) (children : list red_node).

Definition red (t : red_node) : Q :=
  match t with RedNode r _ _ => r end.










End RED.

(** ** Observations on trees and runs used in the statements *)

(** The label [append] gives a leaf labelled [s] whose lineage is [taxa]. *)
Definition appended_label (s : string) (taxa : list string) : string :=
  s ++ "|" ++ Py.join ";" taxa.

(** The in-memory tree with the [label] of every leaf rewritten, for a
    taxonomy that has an entry for each of these labels. *)
Fixpoint relabelled (taxonomy : gmap string (list string)) (n : node) : node :=
  match n with
  | Node tx l e [] =>
      match l, dict_get taxonomy l with
      | Some s, Some taxa => Node tx (Some (appended_label s taxa)) e []
      | _, _ => n
      end
  | Node tx l e cs => Node tx l e (map (relabelled taxonomy) cs)
  end.

(** The first leaf, in iteration order, whose [label] has no entry in the
    taxonomy. *)
Definition first_missing (taxonomy : gmap string (list string))
    (leaves : list node) : option node :=
  List.find (fun n => bool_decide (dict_get taxonomy (label n) = None)) leaves.

(** The record [append] logs for an uncovered leaf. *)
Definition missing_entry (l : option string) : level * string :=
  (ERROR, "Taxonomy file does not contain an entry for " ++ Py.str l ++ ".").

Definition add_log (entries : list (level * string)) (w : world) : world :=
  {| log := log w ++ entries; files := files w |}.

(** The four records [append] logs before it reads anything. *)
Definition append_banner : list (level * string) :=
  [(INFO, ""); (INFO, stars);
   (INFO, " [PhyloRank - append] Appending taxonomy to extant tree labels.");
   (INFO, stars)].

(** How often the inner loop of [rank_res] bumps the cell [(r, l)] over
    the prefixes [ps]. *)
Definition hits (name r l : string) (ps : list string) : Z :=
  fold_right
    (fun p acc =>
       ((if decide (p = r /\ Py.contains p name = true
                   /\ lowest_rank name = l)
         then 1 else 0) + acc)%Z)
    0%Z ps.

(** The lowest rank as the specification words it: the first three
    characters of the last [';']-separated element, taken as it stands. *)
Definition spec_lowest_rank (taxon_name : string) : string :=
  Py.slice_to 3 (Py.last_item (Py.split ";"%char taxon_name)).

(** A label that is only a taxon name: no support value, no auxiliary
    information. *)
Definition taxon_only (lbl : string) : option Q * option string * option string :=
  (None, Some lbl, None).

Definition no_counts : tally := {| rank_res := ∅; taxa_out := [] |}.

(** An internal node named down to phylum, written the way decorated trees
    separate ranks. *)
Definition phylum_node : node :=
  Node None (Some "d__Bacteria; p__Firmicutes") (Some (1 # 10)%Q)
       [Node (Some "G1") None (Some 1%Q) [];
        Node (Some "G2") None (Some 1%Q) []].

(** A taxonomy row with every rank below the domain left bare, as it stands
    in a two-column file: the line ends in a newline. *)
Definition bare_row : string :=
  "G1" ++ tab ++ "d__Bacteria;p__;c__;o__;f__;g__;s__" ++ nl.

(** The same row in a file with a third column. *)
Definition bare_row_three_columns : string :=
  "G1" ++ tab ++ "d__Bacteria;p__;c__;o__;f__;g__;s__" ++ tab ++ "x" ++ nl.

(** ** Worked inputs *)

Definition lineage_G1 : list string :=
  ["d__Bacteria"; "p__Firmicutes"; "c__Bacilli"; "o__Bacillales";
   "f__Bacillaceae"; "g__Bacillus"; "s__Bacillus subtilis"].

Definition lineage_G2 : list string :=
  ["d__Bacteria"; "p__Firmicutes"; "c__Bacilli"; "o__Bacillales";
   "f__Bacillaceae"; "g__Bacillus"; "s__"].

Definition demo_taxonomy : gmap string (list string) :=
  <["G1" := lineage_G1]> (<["G2" := lineage_G2]> ∅).

(** The file [(G1:1,G2:0.5);] *)
Definition two_leaf_newick : newick :=
  Newick None None
         [Newick (Some "G1") (Some 1%Q) [];
          Newick (Some "G2") (Some (1 # 2)%Q) []].

(** The file [(G1:1,G9:0.5);], whose second leaf the taxonomy does not
    know. *)
Definition unmapped_newick : newick :=
  Newick None None
         [Newick (Some "G1") (Some 1%Q) [];
          Newick (Some "G9") (Some (1 # 2)%Q) []].


Definition demo_world : world :=
  {| log := [];
     files :=
       <["in.tree" := TreeFile two_leaf_newick]>
         (<["bad.tree" := TreeFile unmapped_newick]>
            (<["taxonomy.tsv" := TaxonomyFile demo_taxonomy]> ∅)) |}.

Definition demo_options (command tree : string) : options :=
  {| subparser_name := command;
     input_tree := tree;
     taxonomy_file := "taxonomy.tsv";
     output_tree := "out.tree";
     output_table := "out.tsv";
     rank := "p__";
     no_prefix := false;
     no_all_ranks := false;
     no_hierarhcy := false;
     no_species := false |}.

(** A validator that finds one incomplete taxonomy string. *)
Definition one_incomplete (t : gmap string (list string))
    (check_prefixes check_ranks check_hierarchy check_species report : bool)
    : validation_errors :=
  {| invalid_ranks := ["G2"];
     invalid_prefixes := [];
     invalid_species_name := [];
     invalid_hierarchies := [] |}.

(** A parser object whose outside parts are inert; the [append] handler is
    the one of [main.py]. *)
Definition demo_parser : self_t :=
  OptionsParser one_incomplete
    (fun _ _ _ => mret (0%Q, 0%Z, 0%Z))
    (fun _ => "") (fun _ => "")
    (fun _ _ => mret tt)
    "Elapsed: 0.1 s".

(** ** rank_res: rows that can be read, nodes that are counted *)

(** The row has a second tab-separated field, and that field has an element
    for each of the seven ranks. *)
Definition row_ok (line : string) : bool :=
  match Py.split (ascii_of_nat 9) line !! 1%nat with
  | Some field =>
      (length Taxonomy.rank_prefixes <=? length (Py.split ";"%char field))%nat
  | None => false
  end.

(** The lineage field of a row as the second loop sees it. *)
Definition row_lineage (line : string) : list string :=
  match Py.split (ascii_of_nat 9) line !! 1%nat with
  | Some field => Py.split ";"%char field
  | None => []
  end.

(** How often the second loop bumps the cell [(r, l)] on the prefixes [ps]
    read against the elements [xs]. *)
Fixpoint singleton_hits (r l : string) (ps xs : list string) : Z :=
  match ps, xs with
  | p :: ps', x :: xs' =>
      ((if decide (p = r /\ x = p /\ l = "s__") then 1 else 0)
       + singleton_hits r l ps' xs')%Z
  | _, _ => 0%Z
  end.

(** The node is one the first loop counts in the cell [(r, l)]: internal,
    with a non-empty label whose decoded taxon name is non-empty, contains
    the rank prefix [r] and has lowest rank [l]. *)
Definition counted
    (parse_label : string -> option Q * option string * option string)
    (r l : string) (n : node) : bool :=
  negb (is_leaf n)
  && match label n with
     | Some lbl =>
         Py.truthy (Some lbl)
         && match parse_label lbl with
            | (_, Some name, _) =>
                Py.truthy (Some name)
                && bool_decide (r ∈ Taxonomy.rank_prefixes)
                && Py.contains r name
                && bool_decide (l = lowest_rank name)
            | _ => false
            end
     | None => false
     end.

(** The counters alone, with nothing written to [taxa_out]. *)
Definition counters_only (st : tally) : tally :=
  {| rank_res := rank_res st; taxa_out := [] |}.

(** The character occurs in the string. *)
Fixpoint has_char (c : ascii) (s : string) : bool :=
  match s with
  | EmptyString => false
  | String a r => Ascii.eqb a c || has_char c r
  end.

(** ** rank_res: the result table *)

(** What a sequence of [fout.write] calls leaves in the file. *)
Definition written (pieces : list string) : string :=
  fold_right String.append EmptyString pieces.

(** The header line: [Category], then a column for each rank label but the
    first. *)
Definition table_header : string :=
  "Category"
  ++ written (map (fun rank => tab ++ rank) (tail Taxonomy.rank_labels))
  ++ nl.

(** The cells of the row of index [i], whose rank prefix is [rank_prefix]:
    for the column [j] of rank [r], the count [rank_res[r].get(rank_prefix,
    0)] when [i >= j] and a dash otherwise. *)
Definition table_cells (counts : gmap string (gmap string Z)) (i : nat)
    (rank_prefix : string) : list string :=
  imap
    (fun j r =>
       if (j <=? i)%nat
       then tab ++ Py.fmt_d (get_count counts r rank_prefix)
       else tab ++ "-")
    (tail Taxonomy.rank_prefixes).

(** One row: [Taxonomy.rank_labels[i+1]], its cells and a newline. *)
Definition table_row (counts : gmap string (gmap string Z)) (i : nat)
    (rank_prefix : string) : exception + string :=
  match Taxonomy.rank_labels !! S i with
  | None => inl IndexError
  | Some rank_label =>
      inr (rank_label ++ written (table_cells counts i rank_prefix) ++ nl)
  end.

(** [for i, rank_prefix in enumerate(...)] from index [i] on. *)
Fixpoint table_rows (counts : gmap string (gmap string Z)) (i : nat)
    (prefixes : list string) : exception + string :=
  match prefixes with
  | [] => inr EmptyString
  | rank_prefix :: rest =>
      match table_row counts i rank_prefix with
      | inl e => inl e
      | inr row =>
          match table_rows counts (S i) rest with
          | inl e => inl e
          | inr more => inr (row ++ more)
          end
      end
  end.

(** The text written to [options.output_file]. *)
Definition rank_res_table (counts : gmap string (gmap string Z))
    : exception + string :=
  match table_rows counts 0 (tail Taxonomy.rank_prefixes) with
  | inl e => inl e
  | inr rows => inr (table_header ++ rows)
  end.

(** How many times the character occurs in the string. *)
Fixpoint count_char (c : ascii) (s : string) : nat :=
  match s with
  | EmptyString => 0
  | String a r => (if Ascii.eqb a c then 1 else 0) + count_char c r
  end.

(** ** pull *)

(** [for taxon_id, taxa in t.iteritems(): t[taxon_id] = fill(taxa)]: every
    entry of the dictionary is visited once and overwritten in place. *)
Definition fill_all (fill_missing_ranks : list string -> list string)
    (t : gmap string (list string)) : gmap string (list string) :=
  fold_right
    (fun item acc => <[fst item := fill_missing_ranks (snd item)]> acc)
    t (map_to_list t).

(** [Taxonomy().write(t, path)] *)
Definition taxonomy_write (t : gmap string (list string)) (path : string)
    : proc unit := fun w =>
  (Returned tt,
   {| log := log w; files := <[path := TaxonomyFile t]> (files w) |}).

(** The [pull] handler.  [read_from_tree] is biolib's
    [Taxonomy().read_from_tree] on the parsed tree and [fill_missing_ranks]
    its [Taxonomy().fill_missing_ranks]; [options.output_file] and
    [options.no_rank_fill] are the two last arguments. *)
Definition pull
    (read_from_tree : node -> gmap string (list string))
    (fill_missing_ranks : list string -> list string)
    (input_tree output_file : string) (no_rank_fill : bool) : proc unit :=
  check_file_exists input_tree;;
  tree ← get_from_path input_tree;
  let t := read_from_tree tree in
  let t := if negb no_rank_fill then fill_all fill_missing_ranks t else t in
  taxonomy_write t output_file;;
  logger_info ("Taxonomy strings written to: " ++ output_file).

(** The counters after reading the three-column row alone. *)
Definition bare_row_counts : tally :=
  match rank_res_lines false (file_lines bare_row_three_columns) no_counts with
  | inr st => st
  | inl _ => no_counts
  end.

(** Counters with one class-level node under phylum, and the same with a
    count added under the domain. *)
Definition class_counts : gmap string (gmap string Z) :=
  incr ∅ "p__" "c__".

Definition class_and_domain_counts : gmap string (gmap string Z) :=
  incr class_counts "d__" "p__".

(** A search that finds three correct taxa and one incorrect one. *)
Definition three_of_four (input_tree rank output_table : string)
    : proc (Q * Z * Z) :=
  mret ((1 # 4)%Q, 3%Z, 1%Z).

(** ** Proof tactics *)

Ltac split_chain :=
  repeat match goal with
         | |- context [if ?b then _ else _] => destruct b
         end.

Ltac run_handler :=
  unfold mbind, proc_bind;
  match goal with
  | |- context [match ?h ?o ?w with _ => _ end] =>
      destruct (h o w) as [[[]| |] ?]; reflexivity
  end.

(** * Properties *)

(** ** The process monad *)

Lemma bind_returned {A B : Type} (m : proc A) (f : A -> proc B) w a w' :
  m w = (Returned a, w') -> (m ≫= f) w = f a w'.
Proof. intros H. unfold mbind, proc_bind. now rewrite H. Qed.

Lemma bind_sys_exit {A B : Type} (m : proc A) (f : A -> proc B) w arg w' :
  m w = (SysExit arg, w') -> (m ≫= f) w = (SysExit arg, w').
Proof. intros H. unfold mbind, proc_bind. now rewrite H. Qed.

Lemma bind_raised {A B : Type} (m : proc A) (f : A -> proc B) w e w' :
  m w = (Raised e, w') -> (m ≫= f) w = (Raised e, w').
Proof. intros H. unfold mbind, proc_bind. now rewrite H. Qed.

(** ** Leaves of a tree *)

Lemma filter_flat_map {A B : Type} (P : B -> Prop) `{!forall x, Decision (P x)}
    (f : A -> list B) (xs : list A) :
  filter P (flat_map f xs) = flat_map (fun x => filter P (f x)) xs.
Proof.
  induction xs as [|x xs IH]; simpl; [reflexivity|].
  now rewrite filter_app, IH.
Qed.

Lemma leaf_node_iter_leaf tx l e :
  leaf_node_iter (Node tx l e []) = [Node tx l e []].
Proof. reflexivity. Qed.

Lemma leaf_node_iter_internal tx l e c cs :
  leaf_node_iter (Node tx l e (c :: cs)) = flat_map leaf_node_iter (c :: cs).
Proof.
  unfold leaf_node_iter at 1.
  change (preorder_node_iter (Node tx l e (c :: cs)))
    with (Node tx l e (c :: cs) :: flat_map preorder_node_iter (c :: cs)).
  rewrite filter_cons_False by (simpl; discriminate).
  now rewrite filter_flat_map.
Qed.

Lemma first_missing_app taxonomy xs ys :
  first_missing taxonomy (xs ++ ys) =
  match first_missing taxonomy xs with
  | Some n => Some n
  | None => first_missing taxonomy ys
  end.
Proof.
  unfold first_missing. induction xs as [|x xs IH]; simpl; [reflexivity|].
  now destruct (bool_decide _).
Qed.

(** ** append: what the leaf loop does *)

Lemma append_labels_internal taxonomy tx l e c cs :
  append_labels taxonomy (Node tx l e (c :: cs)) =
  (cs' ← for_each (append_labels taxonomy) (c :: cs); mret (Node tx l e cs')).
Proof. reflexivity. Qed.

Lemma relabelled_internal taxonomy tx l e c cs :
  relabelled taxonomy (Node tx l e (c :: cs)) =
  Node tx l e (map (relabelled taxonomy) (c :: cs)).
Proof. reflexivity. Qed.

Lemma for_each_cons {A B : Type} (f : A -> proc B) x xs :
  for_each f (x :: xs) = (y ← f x; ys ← for_each f xs; mret (y :: ys)).
Proof. reflexivity. Qed.

(** On any in-memory tree the loop either rewrites the [label] of every
    leaf, or stops at the first leaf whose [label] has no entry having
    logged it, the world otherwise untouched. *)
Lemma append_labels_run taxonomy n w :
  append_labels taxonomy n w =
  match first_missing taxonomy (leaf_node_iter n) with
  | None => (Returned (relabelled taxonomy n), w)
  | Some m => (SysExit (Some (-1)%Z), add_log [missing_entry (label m)] w)
  end.
Proof.
  revert w. induction n as [tx l e cs IH] using node_ind'. intros w.
  destruct cs as [|c cs].
  - rewrite leaf_node_iter_leaf. unfold first_missing. simpl.
    unfold append_leaf.
    destruct (bool_decide_reflect (dict_get taxonomy l = None)) as [E|E].
    + rewrite E. reflexivity.
    + destruct l as [s|]; [|now elim E].
      simpl in *. destruct (taxonomy !! s); [reflexivity | now elim E].
  - rewrite append_labels_internal, leaf_node_iter_internal, relabelled_internal.
    assert (Hloop : forall w,
      for_each (append_labels taxonomy) (c :: cs) w =
      match first_missing taxonomy (flat_map leaf_node_iter (c :: cs)) with
      | None => (Returned (map (relabelled taxonomy) (c :: cs)), w)
      | Some m =>
          (SysExit (Some (-1)%Z), add_log [missing_entry (label m)] w)
      end).
    { clear w. induction IH as [|x xs Hx _ IHxs]; intros w; [reflexivity|].
      rewrite for_each_cons.
      change (flat_map leaf_node_iter (x :: xs))
        with (leaf_node_iter x ++ flat_map leaf_node_iter xs)%list.
      rewrite first_missing_app.
      destruct (first_missing taxonomy (leaf_node_iter x)) as [m|] eqn:Em.
      - apply bind_sys_exit. now rewrite Hx.
      - rewrite (bind_returned _ _ w (relabelled taxonomy x) w)
          by now rewrite Hx.
        destruct (first_missing taxonomy (flat_map leaf_node_iter xs)) as [m|].
        + apply bind_sys_exit. apply IHxs.
        + rewrite (bind_returned _ _ w (map (relabelled taxonomy) xs) w)
            by apply IHxs.
          reflexivity. }
    destruct (first_missing taxonomy (flat_map leaf_node_iter (c :: cs)))
      as [m|] eqn:Em.
    + apply bind_sys_exit. apply Hloop.
    + rewrite (bind_returned _ _ w (map (relabelled taxonomy) (c :: cs)) w)
        by apply Hloop.
      reflexivity.
Qed.

(** In a tree as dendropy reads it every leaf has its name in its taxon and
    no [label], so the first leaf met is one whose [label] has no entry. *)
Lemma first_missing_read taxonomy nw :
  exists m,
    first_missing taxonomy (leaf_node_iter (read_newick nw)) = Some m /\
    label m = None.
Proof.
  induction nw as [name len subs IH] using newick_ind'.
  destruct subs as [|c cs].
  - exists (Node name None len []). split; reflexivity.
  - change (read_newick (Newick name len (c :: cs)))
      with (Node None name len (read_newick c :: map read_newick cs)).
    rewrite leaf_node_iter_internal.
    change (flat_map leaf_node_iter (read_newick c :: map read_newick cs))
      with (leaf_node_iter (read_newick c)
            ++ flat_map leaf_node_iter (map read_newick cs))%list.
    rewrite first_missing_app.
    inversion IH as [|? ? (m & Hm & Hl) _]; subst.
    exists m. now rewrite Hm.
Qed.

Lemma append_labels_read taxonomy nw w :
  append_labels taxonomy (read_newick nw) w =
  (SysExit (Some (-1)%Z), add_log [missing_entry None] w).
Proof.
  rewrite append_labels_run.
  destruct (first_missing_read taxonomy nw) as (m & -> & ->). reflexivity.
Qed.

(** ** append: the whole command *)

Lemma logger_run lvl msg w :
  logger lvl msg w = (Returned tt, add_log [(lvl, msg)] w).
Proof. reflexivity. Qed.

Lemma add_log_add_log a b w :
  add_log b (add_log a w) = add_log (a ++ b) w.
Proof. unfold add_log. simpl. now rewrite app_assoc. Qed.

Lemma check_file_exists_present path w f :
  files w !! path = Some f -> check_file_exists path w = (Returned tt, w).
Proof. intros H. unfold check_file_exists. now rewrite H. Qed.

Lemma check_file_exists_missing path w :
  files w !! path = None ->
  check_file_exists path w =
  (SysExit None,
   add_log [(ERROR, "Input file does not exists: " ++ path ++ nl)] w).
Proof. intros H. unfold check_file_exists. now rewrite H. Qed.

(** On readable inputs [append] always ends at the first leaf of the tree. *)
Lemma append_run time_stamp options w taxonomy nw :
  files w !! taxonomy_file options = Some (TaxonomyFile taxonomy) ->
  files w !! input_tree options = Some (TreeFile nw) ->
  append time_stamp options w =
  (SysExit (Some (-1)%Z),
   add_log (append_banner ++ [missing_entry None]) w).
Proof.
  intros Htax Htree. unfold append, logger_info.
  do 4 (erewrite bind_returned by apply logger_run; rewrite ?add_log_add_log).
  simpl app.
  erewrite bind_returned by (eapply check_file_exists_present; exact Htree).
  erewrite bind_returned by (eapply check_file_exists_present; exact Htax).
  erewrite bind_returned
    by (unfold taxonomy_read; simpl; rewrite Htax; reflexivity).
  erewrite bind_returned
    by (unfold get_from_path; simpl; rewrite Htree; reflexivity).
  erewrite bind_sys_exit by apply append_labels_read.
  now rewrite add_log_add_log.
Qed.

Lemma append_run_last_record time_stamp options w taxonomy nw :
  files w !! taxonomy_file options = Some (TaxonomyFile taxonomy) ->
  files w !! input_tree options = Some (TreeFile nw) ->
  exists w',
    append time_stamp options w = (SysExit (Some (-1)%Z), w') /\
    last (log w') =
      Some (ERROR, "Taxonomy file does not contain an entry for None.") /\
    files w' = files w.
Proof.
  intros Htax Htree.
  exists (add_log (append_banner ++ [missing_entry None]) w).
  split; [now apply (append_run _ _ _ taxonomy nw)|].
  split; [|reflexivity].
  unfold add_log. cbn [log]. rewrite app_assoc. apply last_snoc.
Qed.

(** C2: even when the taxonomy has an entry for the name of every leaf,
    [append] rewrites no label and writes no tree.  The loop looks up
    [n.label], which dendropy leaves at [None] for a leaf (the name is in
    its taxon), so the lookup fails at the first leaf and the run ends in
    [sys.exit(-1)] after the error record for [None]. *)
Theorem append_exits_with_every_leaf_covered
    time_stamp options w taxonomy nw :
  files w !! taxonomy_file options = Some (TaxonomyFile taxonomy) ->
  files w !! input_tree options = Some (TreeFile nw) ->
  Forall (fun n => exists s, taxon n = Some s /\ is_Some (taxonomy !! s))
         (leaf_node_iter (read_newick nw)) ->
  exists w',
    append time_stamp options w = (SysExit (Some (-1)%Z), w') /\
    last (log w') =
      Some (ERROR, "Taxonomy file does not contain an entry for None.") /\
    files w' = files w.
Proof.
  intros Htax Htree _. now apply (append_run_last_record _ _ _ taxonomy nw).
Qed.

(** C3: when the name of some leaf has no entry in the taxonomy, [append]
    does end with a non-zero status before any tree is written, but the
    error it logs names [None], the [label] of the first leaf of the tree,
    and not the leaf without an entry. *)
Theorem append_missing_leaf_reported_as_none
    time_stamp options w taxonomy nw :
  files w !! taxonomy_file options = Some (TaxonomyFile taxonomy) ->
  files w !! input_tree options = Some (TreeFile nw) ->
  Exists (fun n => exists s, taxon n = Some s /\ taxonomy !! s = None)
         (leaf_node_iter (read_newick nw)) ->
  exists w',
    append time_stamp options w = (SysExit (Some (-1)%Z), w') /\
    Py.exit_status (Some (-1)%Z) = 255%Z /\
    files w' = files w /\
    last (log w') =
      Some (ERROR, "Taxonomy file does not contain an entry for None.").
Proof.
  intros Htax Htree _.
  destruct (append_run_last_record time_stamp options w taxonomy nw Htax Htree)
    as (w' & Hrun & Hlast & Hfiles).
  exists w'. repeat split; assumption.
Qed.


(** ** validate *)

Lemma sum_len_zero (e : validation_errors) :
  py_sum (map len (errors_tuple e)) = 0%Z <->
  invalid_ranks e = [] /\ invalid_prefixes e = [] /\
  invalid_species_name e = [] /\ invalid_hierarchies e = [].
Proof.
  destruct e as [a b c d]. unfold py_sum, errors_tuple, len. simpl. split.
  - intros H.
    assert (length a = 0 /\ length b = 0 /\ length c = 0 /\ length d = 0)%nat
      as (Ha & Hb & Hc & Hd) by lia.
    now rewrite (nil_length_inv _ Ha), (nil_length_inv _ Hb),
                (nil_length_inv _ Hc), (nil_length_inv _ Hd).
  - now intros (-> & -> & -> & ->).
Qed.

(** X15: on a readable taxonomy file [validate] always runs to its end and
    reports on the four collections the validator returns: the single record
    [No errors identified] exactly when all four are empty, and otherwise
    one record per class carrying that class's count. *)
Theorem validate_summarises_all_classes
    (taxonomy_validate :
       gmap string (list string) -> bool -> bool -> bool -> bool -> bool ->
       validation_errors)
    options w t :
  files w !! taxonomy_file options = Some (TaxonomyFile t) ->
  let errors :=
    taxonomy_validate t (negb (no_prefix options))
      (negb (no_all_ranks options)) (negb (no_hierarhcy options))
      (negb (no_species options)) true in
  let no_errors := [(INFO, "No errors identified in taxonomy file.")] in
  let counts :=
    [(INFO, "Identified " ++ Py.fmt_d (Z.of_nat (length (invalid_ranks errors)))
            ++ " incomplete taxonomy strings.");
     (INFO, "Identified " ++ Py.fmt_d (Z.of_nat (length (invalid_prefixes errors)))
            ++ " rank prefix errors.");
     (INFO, "Identified "
            ++ Py.fmt_d (Z.of_nat (length (invalid_species_name errors)))
            ++ " invalid species names.");
     (INFO, "Identified "
            ++ Py.fmt_d (Z.of_nat (length (invalid_hierarchies errors)))
            ++ " taxa with multiple parents.")] in
  exists report,
    validate taxonomy_validate options w = (Returned tt, add_log report w) /\
    (report = no_errors \/ report = counts) /\
    (report = no_errors <->
       invalid_ranks errors = [] /\ invalid_prefixes errors = [] /\
       invalid_species_name errors = [] /\ invalid_hierarchies errors = []).
Proof.
  intros Htax errors no_errors counts.
  unfold validate.
  erewrite bind_returned by (eapply check_file_exists_present; exact Htax).
  erewrite bind_returned
    by (unfold taxonomy_read; rewrite Htax; reflexivity).
  fold errors.
  destruct (Z.eqb_spec (py_sum (map len (errors_tuple errors))) 0) as [E|E].
  - exists no_errors. split; [reflexivity|]. split; [now left|].
    split; [intros _; now apply sum_len_zero | reflexivity].
  - exists counts. split; [|split].
    + unfold logger_info.
      do 3 (erewrite bind_returned by apply logger_run;
            rewrite ?add_log_add_log).
      rewrite logger_run, add_log_add_log. reflexivity.
    + now right.
    + split; [discriminate|]. intros H. elim E. now apply sum_len_zero.
Qed.

(** ** bl_optimal *)

(** C1: with no taxa at the evaluated rank (the correct and incorrect
    counts sum to zero) [bl_optimal] divides by zero: the run ends in an
    uncaught [ZeroDivisionError] and no precision, defined or undefined, is
    reported. *)
Theorem bl_optimal_zero_taxa_raises
    (optimal : string -> string -> string -> proc (Q * Z * Z))
    (fmt_f fmt_2f : Q -> string) options w w'
    (optimal_bl : Q) (correct_taxa incorrect_taxa : Z) :
  optimal (input_tree options) (rank options) (output_table options) w
    = (Returned (optimal_bl, correct_taxa, incorrect_taxa), w') ->
  (correct_taxa + incorrect_taxa = 0)%Z ->
  bl_optimal optimal fmt_f fmt_2f options w = (Raised ZeroDivisionError, w').
Proof.
  intros Hopt Hzero. unfold bl_optimal.
  rewrite (bind_returned _ _ _ _ _ Hopt).
  apply bind_raised. unfold float_div.
  now rewrite Hzero.
Qed.

(** X11: when the correct and incorrect counts do not sum to zero,
    [bl_optimal] returns having logged exactly two records: the optimal
    branch length, and the two counts with the precision
    [correct / (correct + incorrect)]. *)
Lemma bl_optimal_reports_precision
    (optimal : string -> string -> string -> proc (Q * Z * Z))
    (fmt_f fmt_2f : Q -> string) options w w'
    (optimal_bl : Q) (correct_taxa incorrect_taxa : Z) :
  optimal (input_tree options) (rank options) (output_table options) w
    = (Returned (optimal_bl, correct_taxa, incorrect_taxa), w') ->
  (correct_taxa + incorrect_taxa <> 0)%Z ->
  bl_optimal optimal fmt_f fmt_2f options w =
  (Returned tt,
   add_log
     [(INFO, "Optimal branch length is " ++ fmt_f optimal_bl ++ ".");
      (INFO, "This results in " ++ Py.fmt_d correct_taxa
             ++ " correct and " ++ Py.fmt_d incorrect_taxa
             ++ " incorrect taxa (precision = "
             ++ fmt_2f (inject_Z correct_taxa
                        / inject_Z (correct_taxa + incorrect_taxa))%Q
             ++ ").")] w').
Proof.
  intros Hopt Hnz. unfold bl_optimal.
  rewrite (bind_returned _ _ _ _ _ Hopt).
  apply Z.eqb_neq in Hnz.
  erewrite bind_returned by (unfold float_div; rewrite Hnz; reflexivity).
  unfold logger_info.
  erewrite bind_returned by apply logger_run.
  rewrite logger_run, add_log_add_log. reflexivity.
Qed.

(** ** parse_options *)

(** C9, as the code has it: an unknown command name is logged as an error
    and ends the run through [sys.exit()], hence with status 0; a known name
    selects exactly one handler (the sixteen names are distinct), and
    [parse_options] returns 0 when that handler returns, while an exit or an
    exception of the handler ends [parse_options] the same way. *)
Theorem parse_options_dispatch (self : self_t) options w :
  parse_options self options w =
  match handler_of (subparser_name options) (commands self) with
  | Some handler =>
      match handler options w with
      | (Returned _, w') => (Returned 0%Z, w')
      | (SysExit arg, w') => (SysExit arg, w')
      | (Raised e, w') => (Raised e, w')
      end
  | None =>
      (SysExit None,
       add_log [(ERROR, "  [Error] Unknown PhyloRank command: "
                        ++ subparser_name options ++ nl)] w)
  end
  /\ Py.exit_status None = 0%Z
  /\ NoDup (map fst (commands self)).
Proof.
  split; [|split; [reflexivity | compute_done]].
  unfold parse_options, commands, handler_of.
  split_chain; try run_handler.
  reflexivity.
Qed.

(** ** The RED engine *)

Section red_properties.

Import RED.
Local Open Scope Q_scope.


















End red_properties.


(** ** rank_res: the counters *)

Section rank_res_properties.

Local Open Scope Z_scope.

Lemma get_count_incr (counts : gmap string (gmap string Z)) r l r' l' :
  get_count (incr counts r l) r' l' =
  get_count counts r' l' + (if decide (r = r' /\ l = l') then 1 else 0).
Proof.
  unfold incr, get_count at 1.
  destruct (decide (r = r')) as [<-|Hr].
  - rewrite lookup_insert_eq.
    destruct (decide (l = l')) as [<-|Hl].
    + rewrite lookup_insert_eq, decide_True by auto. reflexivity.
    + rewrite lookup_insert_ne, decide_False by tauto.
      unfold get_count. destruct (counts !! r); simpl.
      * lia.
      * rewrite lookup_empty. reflexivity.
  - rewrite lookup_insert_ne, decide_False by tauto.
    unfold get_count. lia.
Qed.

Lemma count_prefixes_fold (taxa_file : bool) name r l ps st :
  get_count
    (rank_res
       (fold_left
          (fun st rank_prefix =>
             if Py.contains rank_prefix name
             then count_one taxa_file st rank_prefix (lowest_rank name) name
             else st)
          ps st)) r l =
  get_count (rank_res st) r l + hits name r l ps.
Proof.
  revert st. induction ps as [|p ps IH]; intros st; simpl; [lia|].
  rewrite IH. destruct (Py.contains p name) eqn:Ec.
  - simpl rank_res. rewrite get_count_incr.
    destruct (decide (p = r /\ lowest_rank name = l)) as [[-> ->]|Hn].
    + rewrite decide_True by auto. lia.
    + rewrite decide_False by tauto. lia.
  - rewrite decide_False by (intros (_ & H & _); discriminate). lia.
Qed.

Lemma hits_NoDup name r l ps :
  NoDup ps ->
  hits name r l ps =
  if decide (r ∈ ps /\ Py.contains r name = true /\ l = lowest_rank name)
  then 1 else 0.
Proof.
  induction 1 as [|p ps Hp Hnd IH].
  - rewrite decide_False; [reflexivity|].
    intros [Hin _]. now apply not_elem_of_nil in Hin.
  - change (hits name r l (p :: ps))
      with ((if decide (p = r /\ Py.contains p name = true
                        /\ lowest_rank name = l)
             then 1 else 0) + hits name r l ps).
    rewrite IH.
    destruct (decide (p = r /\ _)) as [(<- & Hc & <-)|Hhead];
      destruct (decide (_ ∈ ps /\ _)) as [(Hin & Hc' & Hl)|Htail].
    + contradiction.
    + rewrite decide_True; [reflexivity|].
      repeat split; [apply list_elem_of_here | assumption].
    + rewrite decide_True; [reflexivity|].
      repeat split; [now apply list_elem_of_further | assumption..].
    + rewrite decide_False; [reflexivity|].
      intros (Hin & Hc & ->). apply elem_of_cons in Hin as [->|Hin].
      * apply Hhead. auto.
      * apply Htail. auto.
Qed.

Lemma hits_rank_prefixes name r l :
  hits name r l Taxonomy.rank_prefixes =
  if decide (r ∈ Taxonomy.rank_prefixes /\ Py.contains r name = true
             /\ l = lowest_rank name)
  then 1 else 0.
Proof. apply hits_NoDup. compute_done. Qed.

Lemma last_item_map_strip (xs : list string) :
  Py.last_item (map Py.strip xs) = Py.strip (Py.last_item xs).
Proof.
  unfold Py.last_item. induction xs as [|x [|y ys] IH]; try reflexivity.
  exact IH.
Qed.

Lemma lowest_rank_unfold name :
  lowest_rank name =
  Py.slice_to 3 (Py.strip (Py.last_item (Py.split ";"%char name))).
Proof. unfold lowest_rank. now rewrite last_item_map_strip. Qed.

End rank_res_properties.

(** C6, as the code has it: for a labelled internal node whose decoded taxon
    name is not empty, the lowest rank is the first three characters of the
    last [';']-separated element of the name once the white space around
    that element is stripped; the loop adds one to the counter of every rank
    prefix that occurs in the name, under that lowest rank, and changes no
    other counter. *)
Theorem rank_res_node_counts
    (parse_label : string -> option Q * option string * option string)
    (taxa_file : bool) (st : tally) (n : node)
    (lbl name : string) (support : option Q) (aux : option string) :
  is_leaf n = false ->
  label n = Some lbl ->
  lbl <> "" ->
  parse_label lbl = (support, Some name, aux) ->
  name <> "" ->
  forall r l,
    get_count (rank_res (rank_res_node parse_label taxa_file st n)) r l =
    (get_count (rank_res st) r l
     + if decide (r ∈ Taxonomy.rank_prefixes
                  /\ Py.contains r name = true
                  /\ l = Py.slice_to 3
                           (Py.strip
                              (Py.last_item (Py.split ";"%char name))))
       then 1 else 0)%Z.
Proof.
  intros Hleaf Hlbl Hne Hparse Hname r l.
  unfold rank_res_node. rewrite Hleaf, Hlbl, Hparse.
  destruct lbl as [|a lbl]; [now elim Hne|].
  destruct name as [|b name]; [now elim Hname|].
  cbn [Py.truthy negb orb].
  unfold count_prefixes.
  rewrite count_prefixes_fold, hits_rank_prefixes, lowest_rank_unfold.
  reflexivity.
Qed.

(** C6, counterexample to the wording without the stripping: on the name
    [d__Bacteria; p__Firmicutes] the last element starts with a space, its
    first three characters are [ p_], and the code counts under [p__]. *)
Lemma lowest_rank_unstripped_counterexample :
  spec_lowest_rank "d__Bacteria; p__Firmicutes" = " p_" /\
  get_count (rank_res (rank_res_node taxon_only false no_counts phylum_node))
            "p__" (spec_lowest_rank "d__Bacteria; p__Firmicutes") = 0%Z /\
  get_count (rank_res (rank_res_node taxon_only false no_counts phylum_node))
            "p__" "p__" = 1%Z.
Proof. repeat split; vm_compute; reflexivity. Qed.

(** C10: on a two-column row whose ranks below the domain are all bare, the
    loop counts phylum to genus under [s__] but not the species: the last
    field still carries the newline of the line, so it is not equal to
    [s__].  With a third column after the lineage the species is counted. *)
Theorem bare_species_not_counted :
  exists st st3,
    rank_res_lines false (file_lines bare_row) no_counts = inr st /\
    get_count (rank_res st) "p__" "s__" = 1%Z /\
    get_count (rank_res st) "g__" "s__" = 1%Z /\
    get_count (rank_res st) "s__" "s__" = 0%Z /\
    rank_res_lines false (file_lines bare_row_three_columns) no_counts
      = inr st3 /\
    get_count (rank_res st3) "s__" "s__" = 1%Z.
Proof.
  eexists. eexists.
  split; [vm_compute; reflexivity|].
  split; [vm_compute; reflexivity|].
  split; [vm_compute; reflexivity|].
  split; [vm_compute; reflexivity|].
  split; [vm_compute; reflexivity|].
  vm_compute; reflexivity.
Qed.

(** ** Instances *)

Lemma append_exits_with_every_leaf_covered_witness :
  exists w',
    append "Elapsed: 0.1 s" (demo_options "append" "in.tree") demo_world
      = (SysExit (Some (-1)%Z), w') /\
    last (log w') =
      Some (ERROR, "Taxonomy file does not contain an entry for None.") /\
    files w' = files demo_world.
Proof.
  apply (append_exits_with_every_leaf_covered "Elapsed: 0.1 s"
           (demo_options "append" "in.tree") demo_world demo_taxonomy
           two_leaf_newick).
  - vm_compute. reflexivity.
  - vm_compute. reflexivity.
  - vm_compute. repeat econstructor.
Defined.

Lemma append_missing_leaf_reported_as_none_witness :
  exists w',
    append "Elapsed: 0.1 s" (demo_options "append" "bad.tree") demo_world
      = (SysExit (Some (-1)%Z), w') /\
    Py.exit_status (Some (-1)%Z) = 255%Z /\
    files w' = files demo_world /\
    last (log w') =
      Some (ERROR, "Taxonomy file does not contain an entry for None.").
Proof.
  apply (append_missing_leaf_reported_as_none "Elapsed: 0.1 s"
           (demo_options "append" "bad.tree") demo_world demo_taxonomy
           unmapped_newick).
  - vm_compute. reflexivity.
  - vm_compute. reflexivity.
  - vm_compute. apply Exists_cons_tl, Exists_cons_hd.
    exists "G9". split; reflexivity.
Defined.


Lemma bl_optimal_zero_taxa_raises_witness :
  bl_optimal (fun _ _ _ => mret (0%Q, 0%Z, 0%Z)) (fun _ => "") (fun _ => "")
    (demo_options "bl_optimal" "in.tree") demo_world
  = (Raised ZeroDivisionError, demo_world).
Proof.
  apply (bl_optimal_zero_taxa_raises
           (fun _ _ _ => mret (0%Q, 0%Z, 0%Z)) (fun _ => "") (fun _ => "")
           (demo_options "bl_optimal" "in.tree") demo_world demo_world
           0%Q 0%Z 0%Z).
  - reflexivity.
  - reflexivity.
Defined.

Lemma validate_summarises_all_classes_witness :
  exists report,
    validate one_incomplete (demo_options "validate" "in.tree") demo_world
      = (Returned tt, add_log report demo_world) /\
    report =
      [(INFO, "Identified 1 incomplete taxonomy strings.");
       (INFO, "Identified 0 rank prefix errors.");
       (INFO, "Identified 0 invalid species names.");
       (INFO, "Identified 0 taxa with multiple parents.")].
Proof.
  destruct (validate_summarises_all_classes one_incomplete
              (demo_options "validate" "in.tree") demo_world demo_taxonomy)
    as (report & Hrun & [Hno | Hcounts] & _).
  - vm_compute. reflexivity.
  - exfalso. subst report. vm_compute in Hrun. discriminate Hrun.
  - exists report. split; [exact Hrun | exact Hcounts].
Defined.


Lemma rank_res_node_counts_witness :
  get_count
    (rank_res (rank_res_node taxon_only false no_counts phylum_node))
    "p__" "p__" =
  (get_count (rank_res no_counts) "p__" "p__"
   + if decide ("p__" ∈ Taxonomy.rank_prefixes
                /\ Py.contains "p__" "d__Bacteria; p__Firmicutes" = true
                /\ "p__" = Py.slice_to 3
                             (Py.strip
                                (Py.last_item
                                   (Py.split ";"%char
                                      "d__Bacteria; p__Firmicutes"))))
     then 1 else 0)%Z.
Proof.
  apply (rank_res_node_counts taxon_only false no_counts phylum_node
           "d__Bacteria; p__Firmicutes" "d__Bacteria; p__Firmicutes"
           None None).
  - reflexivity.
  - reflexivity.
  - discriminate.
  - reflexivity.
  - discriminate.
Defined.

(** C9, counterexample to "returns 0 for every recognized name": [append] is
    a recognized command, and on this tree its handler leaves through
    [sys.exit(-1)], so [parse_options] returns nothing. *)
Lemma parse_options_handler_exit_counterexample :
  is_Some (handler_of "append" (commands demo_parser)) /\
  (exists w',
     parse_options demo_parser (demo_options "append" "bad.tree") demo_world
     = (SysExit (Some (-1)%Z), w')) /\
  (forall w',
     parse_options demo_parser (demo_options "append" "bad.tree") demo_world
     <> (Returned 0%Z, w')).
Proof.
  split; [eexists; reflexivity|].
  split; [eexists; vm_compute; reflexivity|].
  intros w'. vm_compute. discriminate.
Qed.

(** * Further properties of the handlers *)

(** ** rank_res: reading the taxonomy rows *)

Section rank_res_rows.

Local Open Scope Z_scope.

Lemma count_singletons_short taxa_file taxonomy ps i st :
  (i <= length taxonomy < i + length ps)%nat ->
  count_singletons taxa_file taxonomy i ps st = inl IndexError.
Proof.
  revert i st. induction ps as [|p ps IH]; intros i st Hlen; simpl in *.
  - lia.
  - destruct (taxonomy !! i) as [x|] eqn:Ex; [|reflexivity].
    apply IH. apply lookup_lt_Some in Ex. lia.
Qed.

Lemma count_singletons_long taxa_file taxonomy ps i st :
  (i + length ps <= length taxonomy)%nat ->
  exists st',
    count_singletons taxa_file taxonomy i ps st = inr st' /\
    forall r l,
      get_count (rank_res st') r l =
      get_count (rank_res st) r l + singleton_hits r l ps (drop i taxonomy).
Proof.
  revert i st. induction ps as [|p ps IH]; intros i st Hlen; simpl in *.
  - exists st. split; [reflexivity|]. intros r l. lia.
  - destruct (lookup_lt_is_Some_2 taxonomy i ltac:(lia)) as [x Ex].
    rewrite Ex. rewrite (drop_S _ _ _ Ex).
    destruct (IH (S i)
                (if (x =? p)%string
                 then count_one taxa_file st p "s__" x else st)
                ltac:(lia)) as (st' & Hrun & Hcount).
    exists st'. split; [exact Hrun|]. intros r l. rewrite Hcount.
    destruct (String.eqb_spec x p) as [->|Hne].
    + simpl rank_res. rewrite get_count_incr.
      destruct (decide (p = r /\ "s__" = l)) as [[-> <-]|Hn].
      * rewrite decide_True by auto. lia.
      * rewrite decide_False by (intros (? & _ & ?); auto). lia.
    + rewrite decide_False by (intros (_ & ? & _); auto). lia.
Qed.

Lemma singleton_hits_NoDup r l ps xs :
  NoDup ps ->
  singleton_hits r l ps xs =
  if decide ((r, r) ∈ zip ps xs /\ l = "s__") then 1 else 0.
Proof.
  intros Hnd. revert xs. induction Hnd as [|p ps Hp Hnd IH]; intros xs.
  - rewrite decide_False; [reflexivity|].
    intros [Hin _]. now apply not_elem_of_nil in Hin.
  - destruct xs as [|x xs].
    { rewrite decide_False; [reflexivity|].
      intros [Hin _]. now apply not_elem_of_nil in Hin. }
    change (singleton_hits r l (p :: ps) (x :: xs))
      with ((if decide (p = r /\ x = p /\ l = "s__") then 1 else 0)
            + singleton_hits r l ps xs).
    change (zip (p :: ps) (x :: xs)) with ((p, x) :: zip ps xs).
    rewrite IH.
    destruct (decide (p = r /\ x = p /\ l = "s__")) as [(<- & -> & ->)|Hhead];
      destruct (decide (_ ∈ zip ps xs /\ _)) as [[Hin Hl]|Htail].
    + apply elem_of_zip_l in Hin. contradiction.
    + rewrite decide_True; [reflexivity|].
      split; [apply list_elem_of_here | reflexivity].
    + rewrite decide_True; [reflexivity|].
      split; [now apply list_elem_of_further | assumption].
    + rewrite decide_False; [reflexivity|].
      intros [Hin ->]. apply elem_of_cons in Hin as [Heq|Hin].
      * injection Heq as <- <-. apply Hhead. auto.
      * apply Htail. auto.
Qed.

End rank_res_rows.

Lemma rank_res_line_counts taxa_file st line :
  row_ok line = true ->
  exists st',
    rank_res_line taxa_file st line = inr st' /\
    forall r l,
      get_count (rank_res st') r l =
      (get_count (rank_res st) r l
       + if decide ((r, r) ∈ zip Taxonomy.rank_prefixes (row_lineage line)
                    /\ l = "s__")
         then 1 else 0)%Z.
Proof.
  unfold row_ok, row_lineage, rank_res_line.
  destruct (Py.split (ascii_of_nat 9) line !! 1%nat) as [field|];
    [|discriminate].
  intros Hlen. apply Nat.leb_le in Hlen.
  destruct (count_singletons_long taxa_file (Py.split ";"%char field)
              Taxonomy.rank_prefixes 0 st Hlen) as (st' & Hrun & Hcount).
  exists st'. split; [exact Hrun|]. intros r l.
  rewrite Hcount, drop_0. f_equal.
  apply singleton_hits_NoDup. compute_done.
Qed.

Lemma rank_res_line_cases taxa_file st line :
  match rank_res_line taxa_file st line with
  | inl e => e = IndexError /\ row_ok line = false
  | inr _ => row_ok line = true
  end.
Proof.
  destruct (row_ok line) eqn:Hok.
  - destruct (rank_res_line_counts taxa_file st line Hok) as (st' & -> & _).
    reflexivity.
  - unfold row_ok in Hok. unfold rank_res_line.
    destruct (Py.split (ascii_of_nat 9) line !! 1%nat) as [field|];
      [|now split].
    apply Nat.leb_gt in Hok.
    rewrite count_singletons_short by (simpl in *; lia).
    now split.
Qed.

(** X1: the second loop of [rank_res] raises [IndexError], and nothing else,
    exactly on a row that has no second tab-separated field or whose lineage
    has fewer than seven [';']-separated elements; every other row is read. *)
Theorem rank_res_line_raises_on_short_rows taxa_file st line :
  match rank_res_line taxa_file st line with
  | inl e =>
      e = IndexError /\
      (Py.split (ascii_of_nat 9) line !! 1%nat = None \/
       exists field,
         Py.split (ascii_of_nat 9) line !! 1%nat = Some field /\
         length (Py.split ";"%char field) < 7)
  | inr _ =>
      exists field,
        Py.split (ascii_of_nat 9) line !! 1%nat = Some field /\
        7 <= length (Py.split ";"%char field)
  end.
Proof.
  pose proof (rank_res_line_cases taxa_file st line) as H.
  unfold row_ok in H.
  destruct (rank_res_line taxa_file st line) as [e|st'].
  - destruct H as [-> Hbad]. split; [reflexivity|].
    destruct (Py.split (ascii_of_nat 9) line !! 1%nat) as [field|];
      [right | now left].
    exists field. split; [reflexivity|].
    apply Nat.leb_gt in Hbad. exact Hbad.
  - destruct (Py.split (ascii_of_nat 9) line !! 1%nat) as [field|];
      [|discriminate].
    exists field. split; [reflexivity|].
    apply Nat.leb_le in H. exact H.
Qed.

(** X2: the loop over the taxonomy file is all or nothing: it yields
    counters exactly when every line is readable, and otherwise ends in
    [IndexError] at a line that is not, whatever was counted before. *)
Theorem rank_res_lines_all_or_nothing taxa_file lines st :
  match rank_res_lines taxa_file lines st with
  | inl e =>
      e = IndexError /\ Exists (fun line => row_ok line = false) lines
  | inr _ => Forall (fun line => row_ok line = true) lines
  end.
Proof.
  revert st. induction lines as [|line lines IH]; intros st; simpl.
  - constructor.
  - pose proof (rank_res_line_cases taxa_file st line) as Hline.
    destruct (rank_res_line taxa_file st line) as [e|st1].
    + destruct Hline as [-> Hbad]. split; [reflexivity|].
      now apply Exists_cons_hd.
    + specialize (IH st1).
      destruct (rank_res_lines taxa_file lines st1) as [e|st2].
      * destruct IH as [-> Hex]. split; [reflexivity|].
        now apply Exists_cons_tl.
      * now constructor.
Qed.

(** X3: when the file is read to its end, the cell [(r, "s__")] has grown by
    the number of lines whose raw lineage element at the position of rank
    [r] is the bare prefix [r], and no cell under another lowest rank has
    changed. *)
Theorem rank_res_lines_counts taxa_file lines st st' r l :
  rank_res_lines taxa_file lines st = inr st' ->
  get_count (rank_res st') r l =
  (get_count (rank_res st) r l
   + if decide (l = "s__")
     then Z.of_nat
            (length
               (filter
                  (fun line =>
                     (r, r) ∈ zip Taxonomy.rank_prefixes (row_lineage line))
                  lines))
     else 0)%Z.
Proof.
  revert st. induction lines as [|line lines IH]; intros st Hrun; simpl in Hrun.
  - injection Hrun as <-. destruct (decide (l = "s__")); simpl; lia.
  - pose proof (rank_res_line_cases taxa_file st line) as Hok.
    destruct (rank_res_line taxa_file st line) as [e|st1] eqn:Hline;
      [discriminate|].
    destruct (rank_res_line_counts taxa_file st line Hok)
      as (st1' & Hline' & Hcount).
    rewrite Hline in Hline'. injection Hline' as <-.
    rewrite (IH st1 Hrun), Hcount.
    destruct (decide (l = "s__")) as [->|Hl].
    + destruct (decide ((r, r) ∈ zip Taxonomy.rank_prefixes (row_lineage line)))
        as [Hin|Hin].
      * rewrite decide_True by auto.
        rewrite filter_cons_True by exact Hin. simpl length. lia.
      * rewrite decide_False by tauto.
        rewrite filter_cons_False by exact Hin. lia.
    + rewrite decide_False by tauto. lia.
Qed.

(** ** rank_res: the loop over the tree *)

Section rank_res_nodes.

Variable parse_label : string -> option Q * option string * option string.

Lemma counted_iff r l n :
  counted parse_label r l n = true <->
  exists lbl support name aux,
    is_leaf n = false /\ label n = Some lbl /\ lbl <> "" /\
    parse_label lbl = (support, Some name, aux) /\ name <> "" /\
    r ∈ Taxonomy.rank_prefixes /\ Py.contains r name = true /\
    l = lowest_rank name.
Proof.
  unfold counted. split.
  - intros H. apply andb_true_iff in H as [Hleaf H].
    destruct (label n) as [lbl|]; [|discriminate].
    apply andb_true_iff in H as [Hlbl H].
    destruct (parse_label lbl) as [[support [name|]] aux] eqn:Hp;
      [|discriminate].
    repeat (apply andb_true_iff in H as [H ?]).
    exists lbl, support, name, aux.
    repeat split; try (now apply bool_decide_eq_true_1); try assumption.
    + now apply negb_true_iff.
    + now destruct lbl.
    + now destruct name.
    + now apply bool_decide_eq_true_1 in H2.
    + now apply bool_decide_eq_true_1 in H0.
  - intros (lbl & support & name & aux & Hleaf & -> & Hlbl & -> & Hname
            & Hin & Hc & Hl).
    rewrite Hleaf, Hc. destruct lbl; [now elim Hlbl|].
    destruct name; [now elim Hname|]. simpl.
    rewrite !bool_decide_eq_true_2 by assumption. reflexivity.
Qed.

Lemma rank_res_node_step taxa_file st n r l :
  get_count (rank_res (rank_res_node parse_label taxa_file st n)) r l =
  (get_count (rank_res st) r l
   + if counted parse_label r l n then 1 else 0)%Z.
Proof.
  unfold rank_res_node, counted.
  destruct (label n) as [[|a lbl]|]; cbn [Py.truthy negb orb andb]; try lia.
  - destruct (is_leaf n); cbn [negb andb]; lia.
  - destruct (is_leaf n); cbn [negb andb]; [lia|].
    destruct (parse_label (String a lbl)) as [[support [[|b name]|]] aux];
      cbn [Py.truthy negb orb andb]; try lia.
    unfold count_prefixes.
    rewrite count_prefixes_fold, hits_rank_prefixes.
    destruct (decide _) as [(Hin & Hc & Hl)|Hn].
    + rewrite Hc, !bool_decide_eq_true_2 by assumption. reflexivity.
    + destruct (bool_decide_reflect (r ∈ Taxonomy.rank_prefixes));
        cbn [andb]; [|reflexivity].
      destruct (Py.contains r (String b name)) eqn:Hc; cbn [andb];
        [|reflexivity].
      rewrite bool_decide_eq_false_2; [reflexivity|]. intros Hl.
      apply Hn. auto.
  - destruct (is_leaf n); cbn [negb andb]; lia.
Qed.

Lemma rank_res_nodes_fold taxa_file nodes st r l :
  get_count
    (rank_res (fold_left (rank_res_node parse_label taxa_file) nodes st)) r l =
  (get_count (rank_res st) r l
   + Z.of_nat (length (List.filter (counted parse_label r l) nodes)))%Z.
Proof.
  revert st. induction nodes as [|n nodes IH]; intros st; simpl; [lia|].
  rewrite IH, rank_res_node_step.
  destruct (counted parse_label r l n); simpl length; lia.
Qed.

(** X4: after the loop over the tree, the cell [(r, l)] has grown by the
    number of nodes strictly below the root that are internal, carry a
    non-empty label whose decoded taxon name is non-empty, contains the rank
    prefix [r] and has lowest rank [l]; the root itself is never counted,
    whatever its label. *)
Theorem rank_res_tree_counts taxa_file tree st r l :
  get_count (rank_res (rank_res_tree parse_label taxa_file tree st)) r l =
  (get_count (rank_res st) r l
   + Z.of_nat
       (length
          (List.filter (counted parse_label r l)
             (flat_map preorder_node_iter (child_nodes tree)))))%Z
  /\ (forall n,
        counted parse_label r l n = true <->
        exists lbl support name aux,
          is_leaf n = false /\ label n = Some lbl /\ lbl <> "" /\
          parse_label lbl = (support, Some name, aux) /\ name <> "" /\
          r ∈ Taxonomy.rank_prefixes /\ Py.contains r name = true /\
          l = lowest_rank name).
Proof.
  split; [|intros n; apply counted_iff].
  unfold rank_res_tree. rewrite rank_res_nodes_fold.
  now destruct tree.
Qed.

(** The same run with [taxa_out] switched off. *)
Lemma rank_res_node_counters_only st n :
  rank_res_node parse_label false (counters_only st) n =
  counters_only (rank_res_node parse_label true st n).
Proof.
  unfold rank_res_node.
  destruct (negb (Py.truthy (label n)) || is_leaf n); [reflexivity|].
  destruct (label n) as [lbl|]; [|reflexivity].
  destruct (parse_label lbl) as [[support [name|]] aux]; [|reflexivity].
  destruct (Py.truthy (Some name)); [|reflexivity].
  unfold count_prefixes. generalize Taxonomy.rank_prefixes. intros ps.
  revert st. induction ps as [|p ps IH]; intros st; [reflexivity|].
  simpl. destruct (Py.contains p name); [|apply IH].
  rewrite <- IH. reflexivity.
Qed.

Lemma rank_res_tree_counters_only tree st :
  rank_res_tree parse_label false tree (counters_only st) =
  counters_only (rank_res_tree parse_label true tree st).
Proof.
  unfold rank_res_tree. generalize (tail (preorder_node_iter tree)).
  intros nodes. revert st.
  induction nodes as [|n nodes IH]; intros st; [reflexivity|].
  simpl. rewrite rank_res_node_counters_only. apply IH.
Qed.

End rank_res_nodes.

Lemma count_singletons_counters_only taxonomy ps i st :
  count_singletons false taxonomy i ps (counters_only st) =
  match count_singletons true taxonomy i ps st with
  | inl e => inl e
  | inr st' => inr (counters_only st')
  end.
Proof.
  revert i st. induction ps as [|p ps IH]; intros i st; simpl; [reflexivity|].
  destruct (taxonomy !! i) as [x|]; [|reflexivity].
  rewrite <- IH. now destruct (x =? p).
Qed.

Lemma rank_res_lines_counters_only lines st :
  rank_res_lines false lines (counters_only st) =
  match rank_res_lines true lines st with
  | inl e => inl e
  | inr st' => inr (counters_only st')
  end.
Proof.
  revert st. induction lines as [|line lines IH]; intros st; simpl;
    [reflexivity|].
  unfold rank_res_line.
  destruct (Py.split (ascii_of_nat 9) line !! 1%nat) as [field|];
    [|reflexivity].
  rewrite count_singletons_counters_only.
  destruct (count_singletons true _ _ _ st) as [e|st1]; [reflexivity|].
  apply IH.
Qed.

(** X5: writing the taxa file changes nothing else: without
    [options.taxa_file] both loops fail on the same inputs and end with the
    same counters as with it, and nothing is written to [taxa_out]. *)
Theorem rank_res_counts_without_taxa_file
    (parse_label : string -> option Q * option string * option string)
    tree lines :
  rank_res_counts parse_label false tree lines =
  match rank_res_counts parse_label true tree lines with
  | inl e => inl e
  | inr st => inr {| rank_res := rank_res st; taxa_out := [] |}
  end.
Proof.
  unfold rank_res_counts.
  change {| rank_res := ∅; taxa_out := [] |}
    with (counters_only {| rank_res := ∅; taxa_out := [] |}) at 1.
  rewrite rank_res_tree_counters_only. apply rank_res_lines_counters_only.
Qed.

(** ** rank_res: the lowest rank of a taxon name *)

Lemma split_nonempty sep s : Py.split sep s <> [].
Proof.
  destruct s as [|c s]; simpl; [discriminate|].
  destruct (Ascii.eqb c sep); [discriminate|].
  destruct (Py.split sep s); discriminate.
Qed.

Lemma split_app_sep sep a b :
  Py.split sep (a ++ String sep b) = (Py.split sep a ++ Py.split sep b)%list.
Proof.
  induction a as [|c a IH]; simpl.
  - now rewrite Ascii.eqb_refl.
  - rewrite IH. destruct (Ascii.eqb c sep); [reflexivity|].
    pose proof (split_nonempty sep a) as Hne.
    destruct (Py.split sep a) as [|h t]; [now elim Hne|]. reflexivity.
Qed.

Lemma split_no_sep sep b : has_char sep b = false -> Py.split sep b = [b].
Proof.
  induction b as [|c b IH]; simpl; [reflexivity|].
  intros H. apply orb_false_iff in H as [Hc Hb].
  rewrite Hc, (IH Hb). reflexivity.
Qed.

Lemma slice_to_length n s : String.length (Py.slice_to n s) <= n.
Proof.
  unfold Py.slice_to. revert s. induction n as [|n IH]; intros s.
  - destruct s; simpl; lia.
  - destruct s as [|c s]; simpl; [lia|]. specialize (IH s). lia.
Qed.

(** X6: the lowest rank [rank_res] derives from a taxon name depends only on
    the text after the last [';']: it is the first three characters of that
    text once stripped, whatever stands before, and it never has more than
    three characters. *)
Theorem lowest_rank_after_last_separator (before last : string) :
  has_char ";"%char last = false ->
  lowest_rank (before ++ ";" ++ last) = Py.slice_to 3 (Py.strip last) /\
  lowest_rank last = Py.slice_to 3 (Py.strip last) /\
  String.length (lowest_rank (before ++ ";" ++ last)) <= 3.
Proof.
  intros Hlast. rewrite !lowest_rank_unfold.
  change (before ++ ";" ++ last) with (before ++ String ";"%char last).
  rewrite split_app_sep, (split_no_sep _ _ Hlast).
  unfold Py.last_item at 1 3. rewrite !List.last_last.
  repeat split. apply slice_to_length.
Qed.

(** ** rank_res: the result table *)

Lemma table_cells_ext (a b : gmap string (gmap string Z)) i l :
  (forall j r,
     tail Taxonomy.rank_prefixes !! j = Some r -> j <= i ->
     get_count a r l = get_count b r l) ->
  table_cells a i l = table_cells b i l.
Proof.
  intros H. unfold table_cells. apply imap_ext. intros j r Hr.
  destruct (Nat.leb_spec j i) as [Hle|_]; [|reflexivity].
  now rewrite (H j r Hr Hle).
Qed.

Lemma table_rows_ext (a b : gmap string (gmap string Z)) ps i :
  (forall k l,
     ps !! k = Some l ->
     forall j r,
       tail Taxonomy.rank_prefixes !! j = Some r -> j <= i + k ->
       get_count a r l = get_count b r l) ->
  table_rows a i ps = table_rows b i ps.
Proof.
  revert i. induction ps as [|p ps IH]; intros i H; [reflexivity|].
  simpl. unfold table_row.
  rewrite (table_cells_ext a b i p).
  - rewrite (IH (S i)); [reflexivity|].
    intros k l Hk j r Hr Hle. apply (H (S k) l Hk j r Hr). lia.
  - intros j r Hr Hle. apply (H 0 p eq_refl j r Hr). lia.
Qed.

(** X7: the table shows the counters of the six ranks below the domain only,
    and of those only the cells whose column rank is at or above the row
    rank: two sets of counters that agree on these cells give the same
    file, whatever they hold for the domain or for any other lowest rank. *)
Theorem rank_res_table_shows_lower_triangle
    (a b : gmap string (gmap string Z)) :
  (forall i j r l,
     tail Taxonomy.rank_prefixes !! j = Some r ->
     tail Taxonomy.rank_prefixes !! i = Some l ->
     j <= i ->
     get_count a r l = get_count b r l) ->
  rank_res_table a = rank_res_table b.
Proof.
  intros H. unfold rank_res_table.
  rewrite (table_rows_ext a b (tail Taxonomy.rank_prefixes) 0);
    [reflexivity|].
  intros k l Hk j r Hr Hle. now apply (H k j).
Qed.

Lemma string_append_assoc (s t u : string) : (s ++ t) ++ u = s ++ t ++ u.
Proof.
  induction s as [|a s IH]; [reflexivity|].
  change (String a ((s ++ t) ++ u) = String a (s ++ t ++ u)). now f_equal.
Qed.

Lemma count_char_app c s t :
  count_char c (s ++ t) = count_char c s + count_char c t.
Proof. induction s as [|a s IH]; simpl; [reflexivity|]. rewrite IH. lia. Qed.

Lemma count_char_uint c d :
  c = ascii_of_nat 9 \/ c = ascii_of_nat 10 ->
  count_char c (NilEmpty.string_of_uint d) = 0.
Proof.
  intros [-> | ->]; induction d; simpl; auto.
Qed.

Lemma count_char_fmt_d c n :
  c = ascii_of_nat 9 \/ c = ascii_of_nat 10 ->
  count_char c (Py.fmt_d n) = 0.
Proof.
  intros Hc. unfold Py.fmt_d, NilEmpty.string_of_int.
  destruct (Z.to_int n) as [d|d].
  - now apply count_char_uint.
  - change (String "-" (NilEmpty.string_of_uint d))
      with ("-" ++ NilEmpty.string_of_uint d).
    rewrite count_char_app, (count_char_uint c d Hc).
    destruct Hc as [-> | ->]; reflexivity.
Qed.

Lemma file_lines_line s rest :
  count_char (ascii_of_nat 10) s = 0 ->
  file_lines (s ++ nl ++ rest) = (s ++ nl) :: file_lines rest.
Proof.
  induction s as [|c s IH]; intros Hs.
  - reflexivity.
  - simpl in Hs.
    destruct (Ascii.eqb c (ascii_of_nat 10)) eqn:Hc; [discriminate|].
    change (file_lines (String c s ++ nl ++ rest))
      with (if Ascii.eqb c (ascii_of_nat 10)
            then String c EmptyString :: file_lines (s ++ nl ++ rest)
            else match file_lines (s ++ nl ++ rest) with
                 | [] => [String c EmptyString]
                 | h :: t => String c h :: t
                 end).
    rewrite Hc, (IH Hs). reflexivity.
Qed.

Lemma written_cells_count c (f : nat -> string -> string) (rs : list string) n :
  (forall j r, count_char c (f j r) = n) ->
  count_char c (written (imap f rs)) = length rs * n.
Proof.
  revert f. induction rs as [|r rs IH]; intros f Hf; [reflexivity|].
  rewrite imap_cons. simpl written. rewrite count_char_app, Hf.
  rewrite (IH (f ∘ S)) by (intros j r'; apply Hf). simpl. lia.
Qed.

Lemma table_cells_counts counts i p :
  count_char (ascii_of_nat 9) (written (table_cells counts i p)) = 6 /\
  count_char (ascii_of_nat 10) (written (table_cells counts i p)) = 0.
Proof.
  unfold table_cells. split.
  - rewrite (written_cells_count _ _ _ 1); [reflexivity|].
    intros j r. destruct (j <=? i)%nat; [|reflexivity].
    rewrite count_char_app, count_char_fmt_d by auto. reflexivity.
  - rewrite (written_cells_count _ _ _ 0); [reflexivity|].
    intros j r. destruct (j <=? i)%nat; [|reflexivity].
    rewrite count_char_app, count_char_fmt_d by auto. reflexivity.
Qed.

Lemma table_rows_lines counts ps i :
  i + length ps <= 6 ->
  exists rows,
    table_rows counts i ps = inr rows /\
    length (file_lines rows) = length ps /\
    Forall (fun line => count_char (ascii_of_nat 9) line = 6)
           (file_lines rows).
Proof.
  revert i. induction ps as [|p ps IH]; intros i Hlen.
  - exists EmptyString. repeat split. constructor.
  - simpl in Hlen. simpl table_rows. unfold table_row.
    destruct (lookup_lt_is_Some_2 Taxonomy.rank_labels (S i)
                ltac:(simpl; lia)) as [lbl Hlbl].
    rewrite Hlbl.
    destruct (IH (S i) ltac:(lia)) as (more & -> & Hn & Hall).
    destruct (table_cells_counts counts i p) as [Htab Hnl].
    assert (Hplain : count_char (ascii_of_nat 9) lbl = 0
                     /\ count_char (ascii_of_nat 10) lbl = 0).
    { assert (Hin : lbl ∈ Taxonomy.rank_labels)
        by (eapply list_elem_of_lookup_2; exact Hlbl).
      unfold Taxonomy.rank_labels in Hin.
      repeat (apply elem_of_cons in Hin as [->|Hin]; [now split|]).
      now apply not_elem_of_nil in Hin. }
    destruct Hplain as [Hltab Hlnl].
    eexists. split; [reflexivity|].
    rewrite !string_append_assoc.
    rewrite <- (string_append_assoc lbl).
    rewrite file_lines_line by (rewrite count_char_app; lia).
    split; [simpl; now rewrite Hn|].
    constructor; [|exact Hall].
    rewrite !count_char_app, Hltab, Htab. reflexivity.
Qed.

(** X8: writing the table never fails, and the file always has the header
    and one row for each of the six ranks below the domain, every line with
    the same seven tab-separated columns, whatever the counters are. *)
Theorem rank_res_table_shape (counts : gmap string (gmap string Z)) :
  exists text,
    rank_res_table counts = inr text /\
    length (file_lines text) = 7 /\
    Forall (fun line => count_char (ascii_of_nat 9) line = 6)
           (file_lines text).
Proof.
  unfold rank_res_table.
  destruct (table_rows_lines counts (tail Taxonomy.rank_prefixes) 0
              ltac:(simpl; lia)) as (rows & -> & Hn & Hall).
  eexists. split; [reflexivity|].
  change (table_header ++ rows)
    with (("Category" ++ tab ++ "phylum" ++ tab ++ "class" ++ tab ++ "order"
           ++ tab ++ "family" ++ tab ++ "genus" ++ tab ++ "species")
          ++ nl ++ rows).
  rewrite file_lines_line by reflexivity.
  split; [simpl; now rewrite Hn|].
  constructor; [reflexivity | exact Hall].
Qed.

(** ** append: what is left untouched *)

(** X10: however [append] ends (a missing or unreadable input, or the exit
    at the first leaf), no file has been created or changed: the run has
    only added records to the log. *)
Theorem append_never_writes_a_file time_stamp options w :
  let w' := snd (append time_stamp options w) in
  files w' = files w /\
  exists entries, log w' = (log w ++ entries)%list.
Proof.
  unfold append, logger_info.
  do 4 (erewrite bind_returned by apply logger_run; rewrite ?add_log_add_log).
  simpl app.
  destruct (files w !! input_tree options) as [ftree|] eqn:Htree.
  2:{ erewrite bind_sys_exit
        by (apply check_file_exists_missing; exact Htree).
      rewrite add_log_add_log. simpl. split; [reflexivity | eauto]. }
  erewrite bind_returned by (eapply check_file_exists_present; exact Htree).
  destruct (files w !! taxonomy_file options) as [ftax|] eqn:Htax.
  2:{ erewrite bind_sys_exit
        by (apply check_file_exists_missing; exact Htax).
      rewrite add_log_add_log. simpl. split; [reflexivity | eauto]. }
  erewrite bind_returned by (eapply check_file_exists_present; exact Htax).
  destruct ftax as [nw'|taxonomy].
  { erewrite bind_raised
      by (unfold taxonomy_read; simpl; rewrite Htax; reflexivity).
    simpl. split; [reflexivity | eauto]. }
  erewrite bind_returned
    by (unfold taxonomy_read; simpl; rewrite Htax; reflexivity).
  destruct ftree as [nw|taxonomy'].
  2:{ erewrite bind_raised
        by (unfold get_from_path; simpl; rewrite Htree; reflexivity).
      simpl. split; [reflexivity | eauto]. }
  erewrite bind_returned
    by (unfold get_from_path; simpl; rewrite Htree; reflexivity).
  erewrite bind_sys_exit by apply append_labels_read.
  rewrite add_log_add_log. simpl. split; [reflexivity | eauto].
Qed.

(** ** parse_options: the exit status of validate and of append *)

Lemma validate_returns
    (taxonomy_validate :
       gmap string (list string) -> bool -> bool -> bool -> bool -> bool ->
       validation_errors)
    options w t :
  files w !! taxonomy_file options = Some (TaxonomyFile t) ->
  exists report,
    validate taxonomy_validate options w = (Returned tt, add_log report w).
Proof.
  intros Htax. unfold validate.
  erewrite bind_returned by (eapply check_file_exists_present; exact Htax).
  erewrite bind_returned
    by (unfold taxonomy_read; rewrite Htax; reflexivity).
  destruct (py_sum _ =? 0)%Z.
  - eexists. apply logger_run.
  - unfold logger_info.
    do 3 (erewrite bind_returned by apply logger_run;
          rewrite ?add_log_add_log).
    rewrite logger_run, add_log_add_log. eexists. reflexivity.
Qed.

(** X12: run through [parse_options], [validate] on a readable taxonomy file
    returns 0 whatever the validator found: invalid entries change the log,
    never the result, and no file is written. *)
Theorem parse_options_validate_returns_zero
    (taxonomy_validate :
       gmap string (list string) -> bool -> bool -> bool -> bool -> bool ->
       validation_errors)
    (optimal : string -> string -> string -> proc (Q * Z * Z))
    (fmt_f fmt_2f : Q -> string)
    (external : string -> options -> proc unit)
    (time_stamp : string) options w t :
  subparser_name options = "validate" ->
  files w !! taxonomy_file options = Some (TaxonomyFile t) ->
  exists w',
    parse_options
      (OptionsParser taxonomy_validate optimal fmt_f fmt_2f external time_stamp)
      options w = (Returned 0%Z, w') /\
    files w' = files w.
Proof.
  intros Hname Htax.
  destruct (validate_returns taxonomy_validate options w t Htax)
    as [report Hrun].
  exists (add_log report w). split; [|reflexivity].
  unfold parse_options. rewrite Hname. simpl.
  now rewrite (bind_returned _ _ _ _ _ Hrun).
Qed.

(** X13: run through [parse_options], [append] on readable inputs never
    returns 0: whatever the taxonomy holds, the process leaves through
    [sys.exit(-1)], which the system reports as status 255. *)
Theorem parse_options_append_status
    (taxonomy_validate :
       gmap string (list string) -> bool -> bool -> bool -> bool -> bool ->
       validation_errors)
    (optimal : string -> string -> string -> proc (Q * Z * Z))
    (fmt_f fmt_2f : Q -> string)
    (external : string -> options -> proc unit)
    (time_stamp : string) options w taxonomy nw :
  subparser_name options = "append" ->
  files w !! taxonomy_file options = Some (TaxonomyFile taxonomy) ->
  files w !! input_tree options = Some (TreeFile nw) ->
  fst (parse_options
         (OptionsParser taxonomy_validate optimal fmt_f fmt_2f external
            time_stamp)
         options w) = SysExit (Some (-1)%Z) /\
  Py.exit_status (Some (-1)%Z) = 255%Z.
Proof.
  intros Hname Htax Htree. split; [|reflexivity].
  unfold parse_options. rewrite Hname. simpl.
  pose proof (append_run time_stamp options w taxonomy nw Htax Htree) as Hrun.
  now rewrite (bind_sys_exit _ _ _ _ _ Hrun).
Qed.

(** ** pull *)

Lemma fold_insert_lookup (f : list string -> list string)
    (items : list (string * list string)) (t : gmap string (list string)) k :
  NoDup (map fst items) ->
  fold_right (fun item acc => <[fst item := f (snd item)]> acc) t items !! k =
  match list_to_map (M := gmap string (list string)) items !! k with
  | Some v => Some (f v)
  | None => t !! k
  end.
Proof.
  induction items as [|[k' v] items IH]; intros Hnd; simpl.
  - now rewrite lookup_empty.
  - inversion Hnd as [|? ? Hk Hnd']; subst.
    destruct (decide (k' = k)) as [->|Hne].
    + now rewrite !lookup_insert_eq.
    + rewrite !lookup_insert_ne by exact Hne. now apply IH.
Qed.

Lemma fill_all_fmap (f : list string -> list string)
    (t : gmap string (list string)) :
  fill_all f t = f <$> t.
Proof.
  apply map_eq. intros k. unfold fill_all.
  rewrite fold_insert_lookup by apply NoDup_fst_map_to_list.
  rewrite list_to_map_to_list, lookup_fmap.
  now destruct (t !! k).
Qed.

(** X14: [pull] on a readable tree returns and writes one lineage for each
    taxon identifier read from the tree, no more and no fewer: the lineage
    as read when rank filling is off, and its filled form otherwise. *)
Theorem pull_writes_every_taxon
    (read_from_tree : node -> gmap string (list string))
    (fill_missing_ranks : list string -> list string)
    input_tree output_file no_rank_fill w nw :
  files w !! input_tree = Some (TreeFile nw) ->
  exists w' t',
    pull read_from_tree fill_missing_ranks input_tree output_file
         no_rank_fill w = (Returned tt, w') /\
    files w' !! output_file = Some (TaxonomyFile t') /\
    dom t' = dom (read_from_tree (read_newick nw)) /\
    forall taxon_id,
      t' !! taxon_id =
      (if no_rank_fill then id else fill_missing_ranks)
        <$> read_from_tree (read_newick nw) !! taxon_id.
Proof.
  intros Htree. unfold pull.
  erewrite bind_returned by (eapply check_file_exists_present; exact Htree).
  erewrite bind_returned by (unfold get_from_path; rewrite Htree; reflexivity).
  set (tree := read_newick nw).
  destruct no_rank_fill; simpl negb; cbv iota.
  - eexists _, (read_from_tree tree). split; [reflexivity|].
    split; [apply lookup_insert_eq|]. split; [reflexivity|].
    intros k. now destruct (read_from_tree tree !! k).
  - rewrite fill_all_fmap.
    eexists _, (fill_missing_ranks <$> read_from_tree tree).
    split; [reflexivity|].
    split; [apply lookup_insert_eq|]. split; [apply dom_fmap_L|].
    intros k. apply lookup_fmap.
Qed.

(** ** Instances of the further properties *)

Lemma rank_res_lines_counts_witness :
  get_count (rank_res bare_row_counts) "p__" "s__" =
  (get_count (rank_res no_counts) "p__" "s__"
   + if decide ("s__" = "s__")
     then Z.of_nat
            (length
               (filter
                  (fun line =>
                     ("p__", "p__")
                       ∈ zip Taxonomy.rank_prefixes (row_lineage line))
                  (file_lines bare_row_three_columns)))
     else 0)%Z.
Proof.
  apply (rank_res_lines_counts false (file_lines bare_row_three_columns)
           no_counts bare_row_counts "p__" "s__").
  vm_compute. reflexivity.
Defined.

Lemma lowest_rank_after_last_separator_witness :
  lowest_rank ("d__Bacteria" ++ ";" ++ " p__Firmicutes")
    = Py.slice_to 3 (Py.strip " p__Firmicutes") /\
  lowest_rank " p__Firmicutes" = Py.slice_to 3 (Py.strip " p__Firmicutes") /\
  String.length (lowest_rank ("d__Bacteria" ++ ";" ++ " p__Firmicutes")) <= 3.
Proof.
  apply (lowest_rank_after_last_separator "d__Bacteria" " p__Firmicutes").
  reflexivity.
Defined.

Lemma rank_res_table_shows_lower_triangle_witness :
  rank_res_table class_counts = rank_res_table class_and_domain_counts.
Proof.
  apply (rank_res_table_shows_lower_triangle
           class_counts class_and_domain_counts).
  intros i j r l Hr _ _. unfold class_and_domain_counts.
  rewrite get_count_incr, decide_False; [lia|].
  intros [<- _].
  do 6 (destruct j as [|j]; [discriminate Hr|]). discriminate Hr.
Defined.

Lemma bl_optimal_reports_precision_witness :
  bl_optimal three_of_four (fun _ => "0.250000") (fun _ => "0.75")
    (demo_options "bl_optimal" "in.tree") demo_world =
  (Returned tt,
   add_log
     [(INFO, "Optimal branch length is 0.250000.");
      (INFO, "This results in 3 correct and 1 incorrect taxa (precision = 0.75).")]
     demo_world).
Proof.
  apply (bl_optimal_reports_precision three_of_four
           (fun _ => "0.250000") (fun _ => "0.75")
           (demo_options "bl_optimal" "in.tree") demo_world demo_world
           (1 # 4)%Q 3%Z 1%Z).
  - reflexivity.
  - discriminate.
Defined.

Lemma parse_options_validate_returns_zero_witness :
  exists w',
    parse_options demo_parser (demo_options "validate" "in.tree") demo_world
      = (Returned 0%Z, w') /\
    files w' = files demo_world.
Proof.
  apply (parse_options_validate_returns_zero one_incomplete
           (fun _ _ _ => mret (0%Q, 0%Z, 0%Z)) (fun _ => "") (fun _ => "")
           (fun _ _ => mret tt) "Elapsed: 0.1 s"
           (demo_options "validate" "in.tree") demo_world demo_taxonomy).
  - reflexivity.
  - vm_compute. reflexivity.
Defined.

Lemma parse_options_append_status_witness :
  fst (parse_options demo_parser (demo_options "append" "in.tree") demo_world)
    = SysExit (Some (-1)%Z) /\
  Py.exit_status (Some (-1)%Z) = 255%Z.
Proof.
  apply (parse_options_append_status one_incomplete
           (fun _ _ _ => mret (0%Q, 0%Z, 0%Z)) (fun _ => "") (fun _ => "")
           (fun _ _ => mret tt) "Elapsed: 0.1 s"
           (demo_options "append" "in.tree") demo_world demo_taxonomy
           two_leaf_newick).
  - reflexivity.
  - vm_compute. reflexivity.
  - vm_compute. reflexivity.
Defined.

Lemma pull_writes_every_taxon_witness :
  exists w' t',
    pull (fun _ => demo_taxonomy) (fun taxa => taxa) "in.tree" "pulled.tsv"
         false demo_world = (Returned tt, w') /\
    files w' !! "pulled.tsv" = Some (TaxonomyFile t') /\
    dom t' = dom demo_taxonomy /\
    forall taxon_id,
      t' !! taxon_id = (fun taxa => taxa) <$> demo_taxonomy !! taxon_id.
Proof.
  apply (pull_writes_every_taxon (fun _ => demo_taxonomy) (fun taxa => taxa)
           "in.tree" "pulled.tsv" false demo_world two_leaf_newick).
  vm_compute. reflexivity.
Defined.
